(** * Request instrumentation of the grafana / prometheus / loki demo service

    A shallow embedding of the two variants of the Express application

      - [src/index.js]            (module [Index]) and
      - [src/unnamed/part_000]    (module [Part000]),

    together with the parts of their runtime they rely on: JSON text,
    [Date] formatting, the prom-client counter and histogram, the winston
    logger with its formats and transports, and the Express dispatch of a
    request through the middleware stack.

    Numbers.  JavaScript numbers are IEEE doubles.  Counts and epoch
    milliseconds are integers far below 2^53 and are modelled in [Z].
    A duration [(Date.now() - start) / 1000] is the rational [ms # 1000];
    against a bucket bound [k/1000] the double comparison agrees with the
    rational one, since the two quotients are roundings of rationals that
    are either equal or at least 1/1000 apart.  The sum of a histogram
    series is kept in [Q], without the rounding of the double addition.
    The literals [0.3] and [0.6] compared with [Math.random()] are the
    exact values of the doubles they denote.

    Clock.  Every evaluation of [Date.now()] or [new Date()] has a reading
    of its own, supplied by the environment of the request ([Timing]). *)

From Stdlib Require Import QArith Ascii String.
From stdpp Require Import gmap strings list pretty.

Open Scope Z_scope.

(** ** JSON text, as produced by [JSON.stringify] *)

Module Json.

(** The values that occur in the bodies and log records of the program:
    strings, integers (status codes) and durations in seconds, the
    latter given by their number of milliseconds. *)
Inductive JValue :=
| JStr (s : string)
| JInt (n : Z)
| JSecs (ms : Z).

(** A JavaScript object: keys in insertion order. *)
Definition JObject := list (string * JValue).

Fixpoint get (k : string) (o : JObject) : option JValue :=
  match o with
  | [] => None
  | (k', v) :: o' => if String.eqb k k' then Some v else get k o'
  end.

(** [o[k] = v]: an existing key keeps its position. *)
Fixpoint set (k : string) (v : JValue) (o : JObject) : JObject :=
  match o with
  | [] => [(k, v)]
  | (k', v') :: o' =>
      if String.eqb k k' then (k', v) :: o' else (k', v') :: set k v o'
  end.

(** [Object.assign(target, source)] *)
Definition assign (target source : JObject) : JObject :=
  fold_left (fun acc kv => set (fst kv) (snd kv) acc) source target.

(** The rest object of a destructuring pattern [{k1, ..., kn, ...rest}]. *)
Definition omit (ks : list string) (o : JObject) : JObject :=
  List.filter (fun kv => negb (existsb (String.eqb (fst kv)) ks)) o.

Definition dq : string := String "034"%char EmptyString.
Definition backslash : string := String "092"%char EmptyString.

Definition hexDigit (n : nat) : ascii :=
  if (n <? 10)%nat then ascii_of_nat (48 + n) else ascii_of_nat (87 + n).

Definition escapeChar (c : ascii) : string :=
  let n := nat_of_ascii c in
  if (n =? 34)%nat then backslash +:+ dq
  else if (n =? 92)%nat then backslash +:+ backslash
  else if (n =? 8)%nat then backslash +:+ "b"
  else if (n =? 9)%nat then backslash +:+ "t"
  else if (n =? 10)%nat then backslash +:+ "n"
  else if (n =? 12)%nat then backslash +:+ "f"
  else if (n =? 13)%nat then backslash +:+ "r"
  else if (n <? 32)%nat then
    backslash +:+ "u00" +:+
    String (hexDigit (n / 16)) (String (hexDigit (n mod 16)) EmptyString)
  else String c EmptyString.

Fixpoint escape (s : string) : string :=
  match s with
  | EmptyString => EmptyString
  | String c s' => escapeChar c +:+ escape s'
  end.

Definition quote (s : string) : string := dq +:+ escape s +:+ dq.

Definition digitChar (n : Z) : ascii :=
  ascii_of_nat (48 + Z.to_nat (n mod 10)).

(** The [k] low decimal digits of [n], most significant first. *)
Fixpoint padDigits (k : nat) (n : Z) : string :=
  match k with
  | O => EmptyString
  | S k' => padDigits k' (n / 10) +:+ String (digitChar n) EmptyString
  end.

(** The fraction digits of [frac/1000] without trailing zeros. *)
Definition fraction (frac : Z) : string :=
  if frac mod 100 =? 0 then padDigits 1 (frac / 100)
  else if frac mod 10 =? 0 then padDigits 2 (frac / 10)
  else padDigits 3 frac.

(** Number-to-string of the double nearest to [ms/1000]: its shortest
    decimal, which has at most three fraction digits. *)
Definition showSecs (ms : Z) : string :=
  let a := Z.abs ms in
  (if ms <? 0 then "-" else EmptyString) +:+
  pretty (a / 1000) +:+
  (if a mod 1000 =? 0 then EmptyString else "." +:+ fraction (a mod 1000)).

Definition stringifyValue (v : JValue) : string :=
  match v with
  | JStr s => quote s
  | JInt n => pretty n
  | JSecs ms => showSecs ms
  end.

Definition member (kv : string * JValue) : string :=
  quote (fst kv) +:+ ":" +:+ stringifyValue (snd kv).

Fixpoint members (o : JObject) : string :=
  match o with
  | [] => EmptyString
  | [kv] => member kv
  | kv :: o' => member kv +:+ "," +:+ members o'
  end.

(** [JSON.stringify(o)] *)
Definition stringify (o : JObject) : string := "{" +:+ members o +:+ "}".

Fixpoint insertKey (kv : string * JValue) (o : JObject) : JObject :=
  match o with
  | [] => [kv]
  | kv' :: o' =>
      if String.leb (fst kv) (fst kv') then kv :: o else kv' :: insertKey kv o'
  end.

(** The members in the order of their keys. *)
Definition sortKeys (o : JObject) : JObject := fold_right insertKey [] o.

(** The stringify of the safe-stable-stringify package, which writes the
    keys of an object in sorted order. *)
Definition stableStringify (o : JObject) : string := stringify (sortKeys o).

End Json.

(** ** Dates: [Date.prototype.toISOString] and fecha's [format] *)

Module DateFmt.
Import Json.

(** A calendar date and time of day. *)
Record DateTime := mkDateTime {
  year : Z; month : Z; day : Z;
  hours : Z; minutes : Z; seconds : Z; millis : Z
}.

Definition msPerDay : Z := 86400000.

(** The proleptic Gregorian date of a day number counted from
    1970-01-01. *)
Definition civilFromDays (days : Z) : Z * Z * Z :=
  let z := days + 719468 in
  let era := z / 146097 in
  let doe := z mod 146097 in
  let yoe := (doe - doe / 1460 + doe / 36524 - doe / 146096) / 365 in
  let doy := doe - (365 * yoe + yoe / 4 - yoe / 100) in
  let mp := (5 * doy + 2) / 153 in
  let d := doy - (153 * mp + 2) / 5 + 1 in
  let m := if mp <? 10 then mp + 3 else mp - 9 in
  let y := yoe + era * 400 + (if m <=? 2 then 1 else 0) in
  (y, m, d).

(** The fields of [new Date(t)] for an epoch time [t] in milliseconds. *)
Definition fromEpoch (t : Z) : DateTime :=
  let '(y, m, d) := civilFromDays (t / msPerDay) in
  let r := t mod msPerDay in
  {| year := y; month := m; day := d;
     hours := r / 3600000;
     minutes := (r / 60000) mod 60;
     seconds := (r / 1000) mod 60;
     millis := r mod 1000 |}.

(** Years outside 0..9999 are written with a sign and six digits. *)
Definition isoYear (y : Z) : string :=
  if (0 <=? y) && (y <=? 9999) then padDigits 4 y
  else (if y <? 0 then "-" else "+") +:+ padDigits 6 (Z.abs y).

(** [new Date(t).toISOString()]: UTC, [YYYY-MM-DDTHH:mm:ss.sssZ]. *)
Definition toISOString (t : Z) : string :=
  let d := fromEpoch t in
  isoYear (year d) +:+ "-" +:+ padDigits 2 (month d) +:+ "-" +:+
  padDigits 2 (day d) +:+ "T" +:+ padDigits 2 (hours d) +:+ ":" +:+
  padDigits 2 (minutes d) +:+ ":" +:+ padDigits 2 (seconds d) +:+ "." +:+
  padDigits 3 (millis d) +:+ "Z".

(** [fecha.format(new Date(t), 'YYYY-MM-DD HH:mm:ss')]: the local time,
    [utcOffsetMin] minutes east of UTC. *)
Definition formatLocal (utcOffsetMin : Z) (t : Z) : string :=
  let d := fromEpoch (t + utcOffsetMin * 60000) in
  padDigits 4 (year d) +:+ "-" +:+ padDigits 2 (month d) +:+ "-" +:+
  padDigits 2 (day d) +:+ " " +:+ padDigits 2 (hours d) +:+ ":" +:+
  padDigits 2 (minutes d) +:+ ":" +:+ padDigits 2 (seconds d).

(** *** Recognising an ISO-8601 date-time in UTC *)

Definition isDigit (c : ascii) : bool :=
  let n := nat_of_ascii c in (48 <=? n)%nat && (n <=? 57)%nat.

Fixpoint takeDigits (k : nat) (s : string) : option string :=
  match k, s with
  | O, _ => Some s
  | S k', String c s' => if isDigit c then takeDigits k' s' else None
  | S _, EmptyString => None
  end.

Definition expect (c : ascii) (s : string) : option string :=
  match s with
  | String c' s' => if Ascii.eqb c c' then Some s' else None
  | EmptyString => None
  end.

Definition takeYear (s : string) : option string :=
  match s with
  | String c s' =>
      if Ascii.eqb c "+" || Ascii.eqb c "-" then takeDigits 6 s'
      else takeDigits 4 s
  | EmptyString => None
  end.

(** [YYYY-MM-DDTHH:mm:ss.sssZ], or the same with an expanded year. *)
Definition isISO8601 (s : string) : bool :=
  match
    s1 ← takeYear s; s2 ← expect "-" s1; s3 ← takeDigits 2 s2;
    s4 ← expect "-" s3; s5 ← takeDigits 2 s4; s6 ← expect "T" s5;
    s7 ← takeDigits 2 s6; s8 ← expect ":" s7; s9 ← takeDigits 2 s8;
    s10 ← expect ":" s9; s11 ← takeDigits 2 s10; s12 ← expect "." s11;
    s13 ← takeDigits 3 s12; expect "Z" s13
  with
  | Some EmptyString => true
  | _ => false
  end.

End DateFmt.

(** ** Numbers of the program *)

Module Num.

Definition Qltb (a b : Q) : bool := negb (Qle_bool b a).

(** The double denoted by the literal [0.3]: 5404319552844595 * 2^-54. *)
Definition lit_0_3 : Q := 5404319552844595 # 18014398509481984.

(** The double denoted by the literal [0.6]: 5404319552844595 * 2^-53. *)
Definition lit_0_6 : Q := 5404319552844595 # 9007199254740992.

(** [ms / 1000] *)
Definition secs (ms : Z) : Q := ms # 1000.

End Num.

(** ** prom-client: counter and histogram *)

Module Prom.

(** The label object [{ method, endpoint, status }]. *)
Record Labels := mkLabels { method : string; endpoint : string; status : Z }.

#[global] Instance Labels_eq_dec : EqDecision Labels.
Proof. solve_decision. Defined.

#[global] Instance Labels_countable : Countable Labels.
Proof.
  refine (inj_countable'
            (fun l => (method l, endpoint l, status l))
            (fun t => mkLabels t.1.1 t.1.2 t.2) _).
  intros []; reflexivity.
Defined.

Inductive RegistryError := InvalidBucketConfiguration.

Record Counter := mkCounter {
  c_name : string;
  c_help : string;
  c_labelNames : list string;
  c_values : gmap Labels Z
}.

(** Modelled from the spec: [new promClient.Counter] of the prom-client
    package, which is not part of the sources.  A counter starts with
    no series. *)
Definition newCounter (name help : string) (labelNames : list string)
  : Counter :=
  {| c_name := name; c_help := help; c_labelNames := labelNames;
     c_values := ∅ |}.

Definition counterValue (c : Counter) (l : Labels) : Z :=
  default 0 (c_values c !! l).

(** Modelled from the spec: [Counter.inc(labels)] of prom-client, the
    spec's [incrementCounter]: the series of an unseen label combination
    is created with value zero and then incremented. *)
Definition inc (l : Labels) (c : Counter) : Counter :=
  {| c_name := c_name c; c_help := c_help c;
     c_labelNames := c_labelNames c;
     c_values := <[ l := counterValue c l + 1 ]> (c_values c) |}.

(** One histogram series: a count per finite upper bound, in the order
    of the bounds, the sum and the number of observations. *)
Record Series := mkSeries {
  s_buckets : list (Q * Z);
  s_sum : Q;
  s_count : Z
}.

Record Histogram := mkHistogram {
  h_name : string;
  h_help : string;
  h_labelNames : list string;
  h_upperBounds : list Q;
  h_series : gmap Labels Series
}.

Fixpoint strictlyIncreasing (bs : list Q) : bool :=
  match bs with
  | b :: ((b' :: _) as rest) => Num.Qltb b b' && strictlyIncreasing rest
  | _ => true
  end.

(** Modelled from the spec: [new promClient.Histogram] of prom-client,
    the spec's [registerHistogram]: the bounds must be strictly
    increasing. *)
Definition newHistogram (name help : string) (labelNames : list string)
    (buckets : list Q) : RegistryError + Histogram :=
  if strictlyIncreasing buckets then
    inr {| h_name := name; h_help := help; h_labelNames := labelNames;
           h_upperBounds := buckets; h_series := ∅ |}
  else inl InvalidBucketConfiguration.

Definition emptySeries (bounds : list Q) : Series :=
  {| s_buckets := map (fun b => (b, 0)) bounds; s_sum := 0%Q;
     s_count := 0 |}.

Definition bump (v : Q) (bc : Q * Z) : Q * Z :=
  if Qle_bool v (fst bc) then (fst bc, snd bc + 1) else bc.

(** Modelled from the spec: one observation increments the count, adds
    the value to the sum and increments every bucket whose bound is at
    least the value. *)
Definition observeSeries (v : Q) (s : Series) : Series :=
  {| s_buckets := map (bump v) (s_buckets s);
     s_sum := (s_sum s + v)%Q;
     s_count := s_count s + 1 |}.

Definition seriesOf (h : Histogram) (l : Labels) : Series :=
  default (emptySeries (h_upperBounds h)) (h_series h !! l).

(** Modelled from the spec: [Histogram.observe(labels, value)] of
    prom-client, the spec's [observeHistogram]. *)
Definition observe (l : Labels) (v : Q) (h : Histogram) : Histogram :=
  {| h_name := h_name h; h_help := h_help h;
     h_labelNames := h_labelNames h; h_upperBounds := h_upperBounds h;
     h_series := <[ l := observeSeries v (seriesOf h l) ]> (h_series h) |}.

(** The [le] label of an exposed bucket. *)
Inductive Bound := Le (b : Q) | PlusInf.

(** Modelled from the spec: the bucket lines of the exposition of one
    series, the finite buckets followed by a [+Inf] bucket that reports
    the total count. *)
Definition exposedBuckets (s : Series) : list (Bound * Z) :=
  map (fun bc => (Le (fst bc), snd bc)) (s_buckets s)
  ++ [(PlusInf, s_count s)].

End Prom.

(** ** winston: levels, formats, transports *)

Module Winston.
Import Json.

(** The npm levels, most severe first. *)
Inductive Level := error | warn | info | http | verbose | debug | silly.

#[global] Instance Level_eq_dec : EqDecision Level.
Proof. solve_decision. Defined.

Definition priority (l : Level) : Z :=
  match l with
  | error => 0 | warn => 1 | info => 2 | http => 3
  | verbose => 4 | debug => 5 | silly => 6
  end.

Definition levelName (l : Level) : string :=
  match l with
  | error => "error" | warn => "warn" | info => "info" | http => "http"
  | verbose => "verbose" | debug => "debug" | silly => "silly"
  end.

Inductive Transport :=
| Console (level : option Level)
| File (filename : string) (level : option Level)
| DailyRotateFile (filename datePattern maxFiles : string)
                  (level : option Level).

Definition transportLevel (t : Transport) : option Level :=
  match t with
  | Console l => l
  | File _ l => l
  | DailyRotateFile _ _ _ l => l
  end.

(** The info object handed through the format chain: its string-keyed
    fields and the level kept under the [LEVEL] symbol. *)
Record Info := mkInfo { LEVEL : Level; fields : JObject }.

Definition truthy (v : option JValue) : bool :=
  match v with
  | Some (JStr s) => negb (String.eqb s EmptyString)
  | Some (JInt n) => negb (n =? 0)
  | Some (JSecs ms) => negb (ms =? 0)
  | None => false
  end.

(** [format.timestamp(opts)]: with a format the field is always set,
    without one it is set when absent or falsy. *)
Definition timestamp (fmt : option (Z -> string)) (now : Z) (i : Info)
  : Info :=
  let i1 :=
    match fmt with
    | Some f => mkInfo (LEVEL i) (set "timestamp" (JStr (f now)) (fields i))
    | None => i
    end in
  if truthy (get "timestamp" (fields i1)) then i1
  else mkInfo (LEVEL i1)
              (set "timestamp" (JStr (DateFmt.toISOString now)) (fields i1)).

Definition esc : string := String "027"%char EmptyString.

Definition colorCode (l : Level) : string :=
  match l with
  | error => "31" | warn => "33" | info => "32" | http => "32"
  | verbose => "36" | debug => "34" | silly => "35"
  end.

(** The colorizer of logform switches colours on whatever the terminal
    is. *)
Definition paint (l : Level) (text : string) : string :=
  esc +:+ "[" +:+ colorCode l +:+ "m" +:+ text +:+ esc +:+ "[39m".

(** The text a template literal gives for a field. *)
Definition interpolate (v : option JValue) : string :=
  match v with
  | Some (JStr s) => s
  | Some (JInt n) => pretty n
  | Some (JSecs ms) => showSecs ms
  | None => "undefined"
  end.

(** [format.colorize()]: the [level] field is wrapped in the colour of
    the record's level. *)
Definition colorize (i : Info) : Info :=
  mkInfo (LEVEL i)
         (set "level"
              (JStr (paint (LEVEL i) (interpolate (get "level" (fields i)))))
              (fields i)).

(** [format.json()] *)
Definition json (i : Info) : string := stableStringify (fields i).

Record Logger := mkLogger {
  level : Level;
  format : Z -> Info -> string;
  transports : list Transport
}.

(** A transport accepts a record when its own level, or else the
    logger's, is at least as verbose as the record's. *)
Definition accepts (lg : Logger) (t : Transport) (l : Level) : bool :=
  priority l <=? priority (default (level lg) (transportLevel t)).

Definition isSpecifier (c : ascii) : bool :=
  existsb (Ascii.eqb c) (list_ascii_of_string "scdjifoO%").

(** Whether a message holds a format token, [%] followed by one of
    [scdjifoO%]. *)
Fixpoint hasFormatToken (s : string) : bool :=
  match s with
  | EmptyString => false
  | String a rest =>
      (Ascii.eqb a "%"
       && match rest with
          | String c _ => isSpecifier c
          | EmptyString => false
          end)
      || hasFormatToken rest
  end.

(** The fields of the info object of [logger.<level>(message, meta)].
    An empty [meta] stands for a call without metadata, whose object is
    [{ message }] with [level] set afterwards.  With metadata the object
    is [Object.assign({}, meta, { level, message })], to whose message a
    truthy [meta.message] is appended; the metadata is left out when the
    message holds a format token. *)
Definition infoFields (l : Level) (message : string) (meta : JObject)
  : JObject :=
  match meta with
  | [] => [("message", JStr message); ("level", JStr (levelName l))]
  | _ =>
      if hasFormatToken message then
        [("level", JStr (levelName l)); ("message", JStr message)]
      else
        let o := assign (assign [] meta)
                        [("level", JStr (levelName l));
                         ("message", JStr message)] in
        if truthy (get "message" meta) then
          set "message"
              (JStr (message +:+ " " +:+ interpolate (get "message" meta))) o
        else o
  end.

(** [logger.<level>(message, meta)]: the info object is formatted once
    and written to every transport that accepts the level.  [now] is the
    reading of the clock by the format. *)
Definition log (lg : Logger) (now : Z) (l : Level) (message : string)
    (meta : JObject) : list (Transport * string) :=
  let out := format lg now (mkInfo l (infoFields l message meta)) in
  map (fun t => (t, out)) (List.filter (fun t => accepts lg t l) (transports lg)).

End Winston.

(** ** Entity tags: SHA-1, base64 and the weak tag of the etag package *)

Module Etag.

Definition mask32 (x : Z) : Z := Z.land x 4294967295.

Definition rotl (n x : Z) : Z :=
  mask32 (Z.lor (Z.shiftl x n) (Z.shiftr x (32 - n))).

Definition bytesOf (s : string) : list Z :=
  map (fun c => Z.of_nat (nat_of_ascii c)) (list_ascii_of_string s).

(** The [k] low bytes of [n], most significant first. *)
Fixpoint bigEndian (k : nat) (n : Z) : list Z :=
  match k with
  | O => []
  | S k' => bigEndian k' (n / 256) ++ [n mod 256]
  end.

(** The message followed by the bit 1, zeros and its length in bits, a
    multiple of 64 bytes. *)
Definition pad (bs : list Z) : list Z :=
  let len := Z.of_nat (length bs) in
  bs ++ [128] ++ repeat 0 (Z.to_nat ((55 - len) mod 64))
     ++ bigEndian 8 (8 * len).

Fixpoint blocks (fuel : nat) (bs : list Z) : list (list Z) :=
  match fuel, bs with
  | S fuel', _ :: _ => take 64 bs :: blocks fuel' (drop 64 bs)
  | _, _ => []
  end.

Fixpoint words (fuel : nat) (bs : list Z) : list Z :=
  match fuel, bs with
  | S fuel', b0 :: b1 :: b2 :: b3 :: rest =>
      (((b0 * 256 + b1) * 256 + b2) * 256 + b3) :: words fuel' rest
  | _, _ => []
  end.

(** The message schedule, newest word first. *)
Fixpoint extend (k : nat) (ws : list Z) : list Z :=
  match k with
  | O => ws
  | S k' =>
      let w := rotl 1 (Z.lxor (Z.lxor (List.nth 2 ws 0) (List.nth 7 ws 0))
                              (Z.lxor (List.nth 13 ws 0) (List.nth 15 ws 0))) in
      extend k' (w :: ws)
  end.

Definition schedule (block : list Z) : list Z :=
  rev (extend 64 (rev (words 16 block))).

Definition State : Type := Z * Z * Z * Z * Z.

Definition step (st : State) (iw : nat * Z) : State :=
  let '(a, b, c, d, e) := st in
  let '(i, w) := iw in
  let '(f, k) :=
    if (i <? 20)%nat then
      (Z.lor (Z.land b c) (Z.land (Z.lxor b 4294967295) d), 1518500249)
    else if (i <? 40)%nat then (Z.lxor b (Z.lxor c d), 1859775393)
    else if (i <? 60)%nat then
      (Z.lor (Z.lor (Z.land b c) (Z.land b d)) (Z.land c d), 2400959708)
    else (Z.lxor b (Z.lxor c d), 3395469782) in
  (mask32 (rotl 5 a + f + e + k + w), a, rotl 30 b, c, d).

Definition compress (h : State) (block : list Z) : State :=
  let ws := schedule block in
  let '(a, b, c, d, e) := fold_left step (combine (seq 0 80) ws) h in
  let '(h0, h1, h2, h3, h4) := h in
  (mask32 (h0 + a), mask32 (h1 + b), mask32 (h2 + c), mask32 (h3 + d),
   mask32 (h4 + e)).

Definition initial : State :=
  (1732584193, 4023233417, 2562383102, 271733878, 3285377520).

(** The SHA-1 digest of a message, 20 bytes. *)
Definition sha1 (bs : list Z) : list Z :=
  let padded := pad bs in
  let '(h0, h1, h2, h3, h4) :=
    fold_left compress (blocks (length padded) padded) initial in
  bigEndian 4 h0 ++ bigEndian 4 h1 ++ bigEndian 4 h2 ++ bigEndian 4 h3
    ++ bigEndian 4 h4.

Definition alphabet : string :=
  "ABCDEFGHIJKLMNOPQRSTUVWXYZabcdefghijklmnopqrstuvwxyz0123456789+/".

Definition sextet (n : Z) : string :=
  match String.get (Z.to_nat (n mod 64)) alphabet with
  | Some c => String c EmptyString
  | None => EmptyString
  end.

(** Base64 with padding. *)
Fixpoint base64 (fuel : nat) (bs : list Z) : string :=
  match fuel, bs with
  | S fuel', b0 :: b1 :: b2 :: rest =>
      let n := (b0 * 256 + b1) * 256 + b2 in
      sextet (n / 262144) +:+ sextet (n / 4096) +:+ sextet (n / 64) +:+
      sextet n +:+ base64 fuel' rest
  | S _, [b0; b1] =>
      let n := (b0 * 256 + b1) * 256 in
      sextet (n / 262144) +:+ sextet (n / 4096) +:+ sextet (n / 64) +:+ "="
  | S _, [b0] =>
      let n := b0 * 65536 in
      sextet (n / 262144) +:+ sextet (n / 4096) +:+ "=="
  | _, _ => EmptyString
  end.

Definition hexChar (n : Z) : string :=
  match String.get (Z.to_nat (n mod 16)) "0123456789abcdef" with
  | Some c => String c EmptyString
  | None => EmptyString
  end.

(** [n.toString(16)] of a length. *)
Fixpoint hex (fuel : nat) (n : Z) : string :=
  match fuel with
  | O => EmptyString
  | S fuel' =>
      if n <? 16 then hexChar n else hex fuel' (n / 16) +:+ hexChar n
  end.

(** The weak entity tag of a body: its length in hexadecimal and the
    first 27 characters of the base64 of its SHA-1 digest. *)
Definition weak (body : string) : string :=
  let bs := bytesOf body in
  "W/" +:+ Json.dq +:+ hex 16 (Z.of_nat (length bs)) +:+ "-" +:+
  substring 0 27 (base64 8 (sha1 bs)) +:+ Json.dq.

End Etag.

(** ** Express: requests, responses, freshness and route matching *)

Module Express.
Import Json.

(** The header fields of a request that the response depends on. *)
Record Headers := mkHeaders {
  ifNoneMatch : option string;
  ifModifiedSince : option string;
  cacheControl : option string
}.

Definition noHeaders : Headers := mkHeaders None None None.

Record Request := mkRequest {
  method : string;
  path : string;
  headers : Headers
}.

(** A request without conditional headers. *)
Definition plain (method path : string) : Request :=
  mkRequest method path noHeaders.

Inductive Body :=
| BJson (o : JObject)
| BText (s : string)
| BMetrics (c : Prom.Counter) (h : Prom.Histogram)
| BNotFound
| BEmpty.

Record Response := mkResponse { statusCode : Z; body : Body }.

(** The text of a body, where the model renders it. *)
Definition bodyText (b : Body) : option string :=
  match b with
  | BJson o => Some (stringify o)
  | BText s => Some s
  | BEmpty => Some EmptyString
  | BMetrics _ _ | BNotFound => None
  end.

Definition lowerChar (c : ascii) : ascii :=
  let n := nat_of_ascii c in
  if (65 <=? n)%nat && (n <=? 90)%nat then ascii_of_nat (n + 32) else c.

Fixpoint lower (s : string) : string :=
  match s with
  | EmptyString => EmptyString
  | String c s' => String (lowerChar c) (lower s')
  end.

(** A literal route path matches without regard to case and with an
    optional trailing slash (routing is neither case sensitive nor
    strict by default). *)
Definition matchPath (pattern p : string) : bool :=
  String.eqb (lower p) (lower pattern)
  || String.eqb (lower p) (lower pattern +:+ "/").

(** A route registered with [app.get] handles GET and HEAD. *)
Definition handlesGet (pattern : string) (req : Request) : bool :=
  (String.eqb (method req) "GET" || String.eqb (method req) "HEAD")
  && matchPath pattern (path req).

(** The body of a HEAD response is left out. *)
Definition sent (req : Request) (b : Body) : Body :=
  if String.eqb (method req) "HEAD" then BEmpty else b.

(** *** Freshness of a conditional request (the fresh package) *)

(** A header that is present and not empty. *)
Definition given (h : option string) : option string :=
  match h with
  | Some s => if String.eqb s EmptyString then None else Some s
  | None => None
  end.

Fixpoint splitOn (sep : ascii) (s : string) : list string :=
  match s with
  | EmptyString => [EmptyString]
  | String c s' =>
      if Ascii.eqb c sep then EmptyString :: splitOn sep s'
      else match splitOn sep s' with
           | piece :: pieces => String c piece :: pieces
           | [] => [String c EmptyString]
           end
  end.

Fixpoint dropWhile (p : ascii -> bool) (s : string) : string :=
  match s with
  | EmptyString => EmptyString
  | String c s' => if p c then dropWhile p s' else s
  end.

(** [s] without the characters at its end that satisfy [p]. *)
Fixpoint dropEnd (p : ascii -> bool) (s : string) : string :=
  match s with
  | EmptyString => EmptyString
  | String c s' =>
      match dropEnd p s' with
      | EmptyString => if p c then EmptyString else String c EmptyString
      | rest => String c rest
      end
  end.

Definition trim (p : ascii -> bool) (s : string) : string :=
  dropEnd p (dropWhile p s).

Definition isBlank (c : ascii) : bool := Ascii.eqb c " ".

(** The white space of a regular expression, within Latin-1. *)
Definition isWhite (c : ascii) : bool :=
  let n := nat_of_ascii c in
  ((9 <=? n)%nat && (n <=? 13)%nat) || (n =? 32)%nat || (n =? 160)%nat.

(** The entity tags of an [If-None-Match] field: the pieces between
    commas, without the blanks around them. *)
Definition parseTokenList (s : string) : list string :=
  map (trim isBlank) (splitOn "," s).

(** [Cache-Control] holds the directive [no-cache]. *)
Definition noCache (s : string) : bool :=
  existsb (fun piece => String.eqb (trim isWhite piece) "no-cache")
          (splitOn "," s).

Definition tagMatches (noneMatch etag : string) : bool :=
  String.eqb noneMatch "*"
  || existsb (fun m => String.eqb m etag
                       || String.eqb m ("W/" +:+ etag)
                       || String.eqb ("W/" +:+ m) etag)
             (parseTokenList noneMatch).

(** [fresh(req.headers, { etag })] for a response without
    [Last-Modified], which is what [res.json] produces here.  A request
    without validators is stale, and so is one that asks for [no-cache].
    [precedence] tells whether the installed package lets
    [If-None-Match] decide alone (fresh 1.0 and later, with Express 5)
    or also requires [If-Modified-Since], which can only fail here, to
    be absent (fresh 0.5, with Express 4). *)
Definition fresh (precedence : bool) (h : Headers) (etag : string) : bool :=
  match given (ifModifiedSince h), given (ifNoneMatch h) with
  | None, None => false
  | since, noneMatch =>
      if match given (cacheControl h) with
         | Some cc => noCache cc
         | None => false
         end
      then false
      else
        match noneMatch with
        | Some nm =>
            tagMatches nm etag
            && (precedence || match since with Some _ => false | None => true end)
        | None => false
        end
  end.

(** [req.fresh]: only GET and HEAD, and only when the status is 2xx or
    304. *)
Definition reqFresh (precedence : bool) (req : Request) (status : Z)
    (etag : string) : bool :=
  (String.eqb (method req) "GET" || String.eqb (method req) "HEAD")
  && (((200 <=? status) && (status <? 300)) || (status =? 304))
  && fresh precedence (headers req) etag.

(** What [res.send] hands to the client for a text body: the status
    becomes 304 when the request is fresh against the weak entity tag of
    the body, and a 204 or 304 response and a HEAD response have no
    body. *)
Definition sendStatus (precedence : bool) (req : Request) (status : Z)
    (text : string) : Z :=
  if reqFresh precedence req status (Etag.weak text) then 304 else status.

Definition sendBody (req : Request) (status : Z) (b : Body) : Body :=
  if (status =? 204) || (status =? 304) then BEmpty else sent req b.

End Express.

(** ** The process: environment, state and effects *)

(** A moment of the run with the readings of the two clocks of the
    runtime: [wall] is [Date.now()], the system time in epoch
    milliseconds, which follows adjustments of the system clock; [mono]
    is the monotonic clock ([performance.now()], [process.hrtime()]). *)
Record Instant := mkInstant { wall : Z; mono : Z }.

(** The readings of the clock during one request, one for each place
    that reads it: [Date.now()] in the middleware, the timestamp of the
    first and of the second record of a handler, [Date.now()] in the
    'finish' listener, [new Date()] for the [time] field, and the
    timestamp of the 'Request completed' record.  Nothing is assumed
    about their order. *)
Record Timing := mkTiming {
  tEntry : Instant;
  tCalled : Instant;
  tSent : Instant;
  tFinish : Instant;
  tTime : Instant;
  tCompleted : Instant
}.

Record ProcessEnv := mkProcessEnv {
  NODE_ENV : option string;
  PORT : option string;
  (** [__dirname] of the script *)
  dirname : string;
  utcOffsetMin : Z;
  (** whether the installed fresh package lets [If-None-Match] take
      precedence over [If-Modified-Since] *)
  etagPrecedence : bool;
  (** the successive results of [Math.random()] *)
  random : nat -> Q
}.

Inductive Event :=
| EvRandom (r : Q)
| EvInc (l : Prom.Labels)
| EvObserve (l : Prom.Labels) (v : Q)
| EvLog (lvl : Winston.Level) (message : string) (meta : Json.JObject)
| EvTimer (ms : Z)
| EvSend (status : Z) (b : Express.Body).

Record World := mkWorld {
  requestCounter : Prom.Counter;
  responseTimeHistogram : Prom.Histogram;
  (** what the transports were given, oldest first *)
  written : list (Winston.Transport * string);
  (** [console.log] lines *)
  stdout : list string;
  (** number of [Math.random()] calls so far *)
  draws : nat;
  (** the calls made, oldest first *)
  trace : list Event
}.

Definition M (A : Type) : Type := World -> A * World.

#[global] Instance M_ret : MRet M := fun A a w => (a, w).
#[global] Instance M_bind : MBind M :=
  fun A B f m w => let (a, w') := m w in f a w'.

Definition emit (e : Event) : M unit := fun w =>
  (tt, mkWorld (requestCounter w) (responseTimeHistogram w) (written w)
               (stdout w) (draws w) (trace w ++ [e])).

(** [requestCounter.inc(l)] *)
Definition counterInc (l : Prom.Labels) : M unit := fun w =>
  (tt, mkWorld (Prom.inc l (requestCounter w)) (responseTimeHistogram w)
               (written w) (stdout w) (draws w) (trace w ++ [EvInc l])).

(** [responseTimeHistogram.observe(l, v)] *)
Definition histogramObserve (l : Prom.Labels) (v : Q) : M unit := fun w =>
  (tt, mkWorld (requestCounter w) (Prom.observe l v (responseTimeHistogram w))
               (written w) (stdout w) (draws w)
               (trace w ++ [EvObserve l v])).

(** [logger.<lvl>(message, meta)] at clock reading [now] *)
Definition logWith (lg : Winston.Logger) (now : Z) (lvl : Winston.Level)
    (message : string) (meta : Json.JObject) : M unit := fun w =>
  (tt, mkWorld (requestCounter w) (responseTimeHistogram w)
               (written w ++ Winston.log lg now lvl message meta)
               (stdout w) (draws w) (trace w ++ [EvLog lvl message meta])).

(** [console.log(line)] *)
Definition consoleLog (line : string) : M unit := fun w =>
  (tt, mkWorld (requestCounter w) (responseTimeHistogram w) (written w)
               (stdout w ++ [line]) (draws w) (trace w)).

(** [Math.random()] *)
Definition mathRandom (env : ProcessEnv) : M Q := fun w =>
  let r := random env (draws w) in
  (r, mkWorld (requestCounter w) (responseTimeHistogram w) (written w)
              (stdout w) (S (draws w)) (trace w ++ [EvRandom r])).

(** [await new Promise(resolve => setTimeout(resolve, ms))] *)
Definition sleep (ms : Z) : M unit := emit (EvTimer ms).

(** [res.end]: the response is handed to the client as it is. *)
Definition endWith (req : Express.Request) (status : Z) (b : Express.Body)
  : M Express.Response :=
  let b' := Express.sent req b in
  _ ← emit (EvSend status b'); mret (Express.mkResponse status b').

(** [res.status(status).send(text)]: an entity tag is set, the request is
    checked for freshness, and the response is handed to the client. *)
Definition sendText (env : ProcessEnv) (req : Express.Request) (status : Z)
    (text : string) (b : Express.Body) : M Express.Response :=
  let status' := Express.sendStatus (etagPrecedence env) req status text in
  let b' := Express.sendBody req status' b in
  _ ← emit (EvSend status' b'); mret (Express.mkResponse status' b').

(** [res.status(status).json(o)] *)
Definition sendJson (env : ProcessEnv) (req : Express.Request) (status : Z)
    (o : Json.JObject) : M Express.Response :=
  sendText env req status (Json.stringify o) (Express.BJson o).

(** [res.end(await promClient.register.metrics())]: the exposition of the
    registry as it is when the handler runs. *)
Definition sendMetrics (req : Express.Request) : M Express.Response := fun w =>
  endWith req 200
          (Express.BMetrics (requestCounter w) (responseTimeHistogram w)) w.

(** A request that no route ends: the router answers OPTIONS for a path
    that has routes with the methods they allow, through [res.send], and
    everything else falls through to the final handler, which ends the
    response with 404. *)
Definition unhandled (env : ProcessEnv) (routes : list string)
    (req : Express.Request) : M Express.Response :=
  if String.eqb (Express.method req) "OPTIONS"
     && existsb (fun r => Express.matchPath r (Express.path req)) routes
  then sendText env req 200 "GET,HEAD" (Express.BText "GET,HEAD")
  else endWith req 404 Express.BNotFound.

(** Requests handled one after the other, each run to completion. *)
Fixpoint serve (handle : Timing -> Express.Request -> M Express.Response)
    (rs : list (Timing * Express.Request)) : M (list Express.Response) :=
  match rs with
  | [] => mret []
  | (t, req) :: rs' =>
      resp ← handle t req; resps ← serve handle rs'; mret (resp :: resps)
  end.

(** [process.env.PORT || 4000] as it is interpolated into a string *)
Definition portText (env : ProcessEnv) : string :=
  match PORT env with
  | Some p => if String.eqb p EmptyString then "4000" else p
  | None => "4000"
  end.

(** ** The application of [src/index.js] *)

Module Index.
Import Json Winston Express.

Definition requestCounter : Prom.Counter :=
  Prom.newCounter "http_requests_total"
                  "Total number of HTTP requests made"
                  ["method"; "endpoint"; "status"].

Definition buckets : list Q :=
  [1 # 10; 1 # 2; 1; 2; 5; 50; 100; 200; 500; 1000]%Q.

Definition responseTimeHistogram : Prom.RegistryError + Prom.Histogram :=
  Prom.newHistogram "http_response_time_seconds"
                    "HTTP response time in seconds"
                    ["method"; "endpoint"; "status"] buckets.

(** The template of [format.printf]. *)
Definition printf (i : Info) : string :=
  let meta := omit ["timestamp"; "level"; "message"] (fields i) in
  interpolate (get "timestamp" (fields i)) +:+ " [" +:+
  interpolate (get "level" (fields i)) +:+ "]: " +:+
  interpolate (get "message" (fields i)) +:+ " " +:+
  (if (0 <? length meta)%nat then stringify meta else EmptyString).

Definition logger (env : ProcessEnv) : Logger :=
  {| level := if decide (NODE_ENV env = Some "development")
              then debug else info;
     format := fun now i =>
       printf (colorize
                 (timestamp (Some (DateFmt.formatLocal (utcOffsetMin env)))
                            now i));
     transports :=
       [ Console None;
         DailyRotateFile (dirname env +:+ "/logs/application-%DATE%.log")
                         "YYYY-MM-DD" "14d" (Some info);
         DailyRotateFile (dirname env +:+ "/logs/error-%DATE%.log")
                         "YYYY-MM-DD" "14d" (Some error) ] |}.

(** The listener of the 'finish' event. *)
Definition onFinish (env : ProcessEnv) (t : Timing) (req : Request)
    (start : Z) (res : Response) : M unit :=
  let durationMs := wall (tFinish t) - start in
  let status := statusCode res in
  _ ← counterInc (Prom.mkLabels (method req) (path req) status);
  _ ← histogramObserve (Prom.mkLabels (method req) (path req) status)
                       (Num.secs durationMs);
  logWith (logger env) (wall (tCompleted t)) info "Request completed"
          [ ("method", JStr (method req));
            ("endpoint", JStr (path req));
            ("status", JInt status);
            ("duration", JSecs durationMs);
            ("time", JStr (DateFmt.toISOString (wall (tTime t)))) ].

(** The middleware: it reads the clock, registers the listener and
    calls [next]; the listener runs once the response that the rest of
    the stack produces has been sent. *)
Definition middleware (env : ProcessEnv) (t : Timing) (req : Request)
    (next : M Response) : M Response :=
  let start := wall (tEntry t) in
  res ← next;
  _ ← onFinish env t req start res;
  mret res.

Definition normal (env : ProcessEnv) (t : Timing) (req : Request)
  : M Response :=
  _ ← logWith (logger env) (wall (tCalled t)) info "Normal endpoint called" [];
  sendJson env req 200 [("message", JStr "This is a normal API response")].

Definition abnormal (env : ProcessEnv) (t : Timing) (req : Request)
  : M Response :=
  r ← mathRandom env;
  _ ← logWith (logger env) (wall (tCalled t)) info
              "Abnormal endpoint called" [];
  if Num.Qltb r Num.lit_0_3 then
    res ← sendJson env req 200 [("message", JStr "Fast response")];
    _ ← logWith (logger env) (wall (tSent t)) info "Fast response sent" [];
    mret res
  else if Num.Qltb r Num.lit_0_6 then
    res ← sendJson env req 500 [("error", JStr "Internal Server Error")];
    _ ← logWith (logger env) (wall (tSent t)) error
                "Internal Server Error occurred"
                [ ("endpoint", JStr (path req));
                  ("method", JStr (method req)) ];
    mret res
  else
    _ ← sleep 3000;
    res ← sendJson env req 200 [("message", JStr "Slow response")];
    _ ← logWith (logger env) (wall (tSent t)) info "Slow response sent" [];
    mret res.

Definition metrics (req : Request) : M Response := sendMetrics req.

Definition routes : list string := ["/normal"; "/abnormal"; "/metrics"].

Definition route (env : ProcessEnv) (t : Timing) (req : Request)
  : M Response :=
  if handlesGet "/normal" req then normal env t req
  else if handlesGet "/abnormal" req then abnormal env t req
  else if handlesGet "/metrics" req then metrics req
  else unhandled env routes req.

Definition handleRequest (env : ProcessEnv) (t : Timing) (req : Request)
  : M Response :=
  middleware env t req (route env t req).

(** The callback of [app.listen]. *)
Definition listening (env : ProcessEnv) (now : Z) : M unit :=
  _ ← logWith (logger env) now info
              ("Server running on port " +:+ portText env) [];
  consoleLog ("Server running on port " +:+ portText env).

(** The state after the module has been loaded. *)
Definition init : Prom.RegistryError + World :=
  match responseTimeHistogram with
  | inl e => inl e
  | inr h => inr (mkWorld requestCounter h [] [] 0 [])
  end.

End Index.

(** ** The application of [src/unnamed/part_000] *)

Module Part000.
Import Json Winston Express.

Definition requestCounter : Prom.Counter :=
  Prom.newCounter "http_requests_total"
                  "Total number of HTTP requests made"
                  ["method"; "endpoint"; "status"].

Definition buckets : list Q :=
  [1 # 10; 1 # 2; 1; 2; 5; 50; 100; 200; 500; 1000]%Q.

Definition responseTimeHistogram : Prom.RegistryError + Prom.Histogram :=
  Prom.newHistogram "http_response_time_seconds"
                    "HTTP response time in seconds"
                    ["method"; "endpoint"; "status"] buckets.

Definition logger : Logger :=
  {| level := info;
     format := fun now i => json (timestamp None now i);
     transports := [ File "/var/log/app/app.log" None; Console None ] |}.

(** The listener of the 'finish' event. *)
Definition onFinish (t : Timing) (req : Request) (start : Z)
    (res : Response) : M unit :=
  let durationMs := wall (tFinish t) - start in
  let status := statusCode res in
  _ ← counterInc (Prom.mkLabels (method req) (path req) status);
  _ ← histogramObserve (Prom.mkLabels (method req) (path req) status)
                       (Num.secs durationMs);
  logWith logger (wall (tCompleted t)) info "Request completed"
          [ ("method", JStr (method req));
            ("endpoint", JStr (path req));
            ("status", JInt status);
            ("duration", JSecs durationMs);
            ("time", JStr (DateFmt.toISOString (wall (tTime t)))) ].

Definition middleware (t : Timing) (req : Request) (next : M Response)
  : M Response :=
  let start := wall (tEntry t) in
  res ← next;
  _ ← onFinish t req start res;
  mret res.

Definition normal (env : ProcessEnv) (req : Request) : M Response :=
  sendJson env req 200 [("message", JStr "This is a normal API response")].

Definition abnormal (env : ProcessEnv) (req : Request) : M Response :=
  r ← mathRandom env;
  if Num.Qltb r Num.lit_0_3 then
    sendJson env req 200 [("message", JStr "Fast response")]
  else if Num.Qltb r Num.lit_0_6 then
    sendJson env req 500 [("error", JStr "Internal Server Error")]
  else
    _ ← sleep 3000;
    sendJson env req 200 [("message", JStr "Slow response")].

Definition metrics (req : Request) : M Response := sendMetrics req.

Definition routes : list string := ["/normal"; "/abnormal"; "/metrics"].

Definition route (env : ProcessEnv) (req : Request) : M Response :=
  if handlesGet "/normal" req then normal env req
  else if handlesGet "/abnormal" req then abnormal env req
  else if handlesGet "/metrics" req then metrics req
  else unhandled env routes req.

Definition handleRequest (env : ProcessEnv) (t : Timing) (req : Request)
  : M Response :=
  middleware t req (route env req).

(** The callback of [app.listen]. *)
Definition listening (env : ProcessEnv) (now : Z) : M unit :=
  _ ← logWith logger now info
              ("Server running on port " +:+ portText env) [];
  consoleLog ("Server running on port " +:+ portText env).

(** The state after the module has been loaded. *)
Definition init : Prom.RegistryError + World :=
  match responseTimeHistogram with
  | inl e => inl e
  | inr h => inr (mkWorld requestCounter h [] [] 0 [])
  end.

End Part000.

(** ** Notions used in the statements *)

(** *** The two variants side by side *)

(** The two variants of the application. *)
Inductive Variant := IndexJs | Part000Js.

Definition handleRequest (v : Variant)
  : ProcessEnv -> Timing -> Express.Request -> M Express.Response :=
  match v with
  | IndexJs => Index.handleRequest
  | Part000Js => Part000.handleRequest
  end.

(** What follows the middleware in the stack of a variant. *)
Definition routeOf (v : Variant) (env : ProcessEnv) (t : Timing)
    (req : Express.Request) : M Express.Response :=
  match v with
  | IndexJs => Index.route env t req
  | Part000Js => Part000.route env req
  end.

Definition loggerOf (v : Variant) (env : ProcessEnv) : Winston.Logger :=
  match v with
  | IndexJs => Index.logger env
  | Part000Js => Part000.logger
  end.

Definition initOf (v : Variant) : Prom.RegistryError + World :=
  match v with
  | IndexJs => Index.init
  | Part000Js => Part000.init
  end.

(** The callback of [app.listen] of a variant. *)
Definition listeningOf (v : Variant) : ProcessEnv -> Z -> M unit :=
  match v with
  | IndexJs => Index.listening
  | Part000Js => Part000.listening
  end.

(** The state after either variant has been loaded. *)
Definition startWorld : World :=
  mkWorld (Prom.mkCounter "http_requests_total"
                          "Total number of HTTP requests made"
                          ["method"; "endpoint"; "status"] ∅)
          (Prom.mkHistogram "http_response_time_seconds"
                            "HTTP response time in seconds"
                            ["method"; "endpoint"; "status"]
                            [1 # 10; 1 # 2; 1; 2; 5; 50; 100; 200; 500; 1000]%Q
                            ∅)
          [] [] 0 [].

(** *** Calls and what was written *)

(** The calls made between two states of one run. *)
Definition eventsSince (w w' : World) : list Event :=
  drop (length (trace w)) (trace w').

(** What was given to the transports between two states of one run. *)
Definition writtenSince (w w' : World) : list (Winston.Transport * string) :=
  drop (length (written w)) (written w').

Definition count (p : Event -> bool) (es : list Event) : nat :=
  length (List.filter p es).

Definition isInc (e : Event) : bool :=
  match e with EvInc _ => true | _ => false end.

Definition isObserve (e : Event) : bool :=
  match e with EvObserve _ _ => true | _ => false end.

Definition isLog (e : Event) : bool :=
  match e with EvLog _ _ _ => true | _ => false end.

Definition isErrorLog (e : Event) : bool :=
  match e with EvLog Winston.error _ _ => true | _ => false end.

Definition isRandom (e : Event) : bool :=
  match e with EvRandom _ => true | _ => false end.

Definition isTimer (e : Event) : bool :=
  match e with EvTimer _ => true | _ => false end.

Definition isCompleted (e : Event) : bool :=
  match e with
  | EvLog _ message _ => String.eqb message "Request completed"
  | _ => false
  end.

(** Events that are neither metric updates nor the 'Request completed'
    record. *)
Definition quiet (e : Event) : bool :=
  match e with
  | EvInc _ | EvObserve _ _ => false
  | EvLog _ message _ => negb (String.eqb message "Request completed")
  | _ => true
  end.

(** The calls of the 'finish' listener: metric updates and 'Request
    completed' records. *)
Definition recording (e : Event) : bool := negb (quiet e).

(** *** The 'finish' listener *)

(** The labels the 'finish' listener is expected to use for a request
    and its response. *)
Definition labelsOf (req : Express.Request) (res : Express.Response)
  : Prom.Labels :=
  Prom.mkLabels (Express.method req) (Express.path req)
                (Express.statusCode res).

(** The metadata of the 'Request completed' record; [now] is the reading
    of the clock for its [time] field. *)
Definition completedMeta (req : Express.Request) (res : Express.Response)
    (durationMs now : Z) : Json.JObject :=
  [ ("method", Json.JStr (Express.method req));
    ("endpoint", Json.JStr (Express.path req));
    ("status", Json.JInt (Express.statusCode res));
    ("duration", Json.JSecs durationMs);
    ("time", Json.JStr (DateFmt.toISOString now)) ].

(** The state the 'finish' listener leaves, from the state [w1] in which
    the response was sent. *)
Definition finished (v : Variant) (env : ProcessEnv) (t : Timing)
    (req : Express.Request) (res : Express.Response) (w1 : World) : World :=
  let durationMs := wall (tFinish t) - wall (tEntry t) in
  let l := labelsOf req res in
  let meta := completedMeta req res durationMs (wall (tTime t)) in
  mkWorld (Prom.inc l (requestCounter w1))
          (Prom.observe l (Num.secs durationMs) (responseTimeHistogram w1))
          (written w1
           ++ Winston.log (loggerOf v env) (wall (tCompleted t)) Winston.info
                          "Request completed" meta)
          (stdout w1) (draws w1)
          (trace w1
           ++ [ EvInc l; EvObserve l (Num.secs durationMs);
                EvLog Winston.info "Request completed" meta ]).

(** What a handler, or the router for an unhandled request, leaves
    untouched and what it may add. *)
Definition handlerOnly (w w1 : World) : Prop :=
  requestCounter w1 = requestCounter w /\
  responseTimeHistogram w1 = responseTimeHistogram w /\
  stdout w1 = stdout w /\
  exists hs, trace w1 = trace w ++ hs /\ forallb quiet hs = true /\
             draws w1 = (draws w + count isRandom hs)%nat.

(** Two states with the same metrics, the same number of random draws
    and the same calls of the 'finish' listener so far. *)
Definition sameMetrics (w1 w2 : World) : Prop :=
  requestCounter w1 = requestCounter w2 /\
  responseTimeHistogram w1 = responseTimeHistogram w2 /\
  draws w1 = draws w2 /\
  List.filter recording (trace w1) = List.filter recording (trace w2).

(** *** Histograms *)

(** A sequence of observations applied to a histogram, oldest first. *)
Definition observeAll (obs : list (Prom.Labels * Q)) (h : Prom.Histogram)
  : Prom.Histogram :=
  fold_left (fun h o => Prom.observe (fst o) (snd o) h) obs h.

(** A sequence of values observed in one series, oldest first. *)
Definition observeMany (vs : list Q) (s : Prom.Series) : Prom.Series :=
  fold_left (fun s v => Prom.observeSeries v s) vs s.

(** The values observed for one label combination, oldest first. *)
Definition valuesFor (l : Prom.Labels) (obs : list (Prom.Labels * Q))
  : list Q :=
  map snd (List.filter (fun o => bool_decide (fst o = l)) obs).

(** How many of the values are at most [b]. *)
Definition countLe (b : Q) (vs : list Q) : Z :=
  Z.of_nat (length (List.filter (fun v => Qle_bool v b) vs)).

Definition boundLt (a b : Prom.Bound) : Prop :=
  match a, b with
  | Prom.Le x, Prom.Le y => (x < y)%Q
  | Prom.Le _, Prom.PlusInf => True
  | Prom.PlusInf, _ => False
  end.

(** Along the exposed buckets the bounds increase and the counts do not
    decrease. *)
Definition cumulative (eb : list (Prom.Bound * Z)) : Prop :=
  forall (i j : nat) bi ci bj cj,
    (i < j)%nat -> eb !! i = Some (bi, ci) -> eb !! j = Some (bj, cj) ->
    boundLt bi bj /\ ci <= cj.

(** *** Routes, labels and durations *)

(** The path of the route that handles a request, [req.route.path],
    when there is one.  Both variants register the same routes. *)
Definition routeTemplate (req : Express.Request) : option string :=
  List.find (fun r => Express.handlesGet r req) Index.routes.

(** A request whose path has no route. *)
Definition unregistered (req : Express.Request) : bool :=
  negb (existsb (fun r => Express.matchPath r (Express.path req))
                Index.routes).

(** The endpoint values among the calls: the label of each counter
    increment and histogram observation, and the [endpoint] field of each
    'Request completed' record. *)
Definition endpointOf (e : Event) : list string :=
  match e with
  | EvInc l => [Prom.endpoint l]
  | EvObserve l _ => [Prom.endpoint l]
  | EvLog _ message meta =>
      if String.eqb message "Request completed"
      then [Winston.interpolate (Json.get "endpoint" meta)] else []
  | _ => []
  end.

Definition endpointsUsed (es : list Event) : list string :=
  flat_map endpointOf es.

(** The durations among the calls: the value of each histogram
    observation and the [duration] field of each 'Request completed'
    record. *)
Definition durationOf (e : Event) : list Q :=
  match e with
  | EvObserve _ d => [d]
  | EvLog _ message meta =>
      if String.eqb message "Request completed" then
        match Json.get "duration" meta with
        | Some (Json.JSecs ms) => [Num.secs ms]
        | _ => []
        end
      else []
  | _ => []
  end.

Definition durationsRecorded (es : list Event) : list Q :=
  flat_map durationOf es.

(** The time between entry and completion on each of the two clocks, in
    seconds. *)
Definition monotonicElapsed (t : Timing) : Q :=
  Num.secs (mono (tFinish t) - mono (tEntry t)).

Definition wallElapsed (t : Timing) : Q :=
  Num.secs (wall (tFinish t) - wall (tEntry t)).

(** *** Responses and records *)

(** The body of the response of [GET /normal]. *)
Definition normalBody : string :=
  "{" +:+ Json.dq +:+ "message" +:+ Json.dq +:+ ":" +:+ Json.dq +:+
  "This is a normal API response" +:+ Json.dq +:+ "}".

(** The bodies of the three outcomes of [GET /abnormal]. *)
Definition fastBody : Express.Body :=
  Express.BJson [("message", Json.JStr "Fast response")].

Definition errorBody : Express.Body :=
  Express.BJson [("error", Json.JStr "Internal Server Error")].

Definition slowBody : Express.Body :=
  Express.BJson [("message", Json.JStr "Slow response")].

(** A text that is a JSON object with a [timestamp] field holding an
    ISO-8601 date-time. *)
Definition jsonWithIsoTimestamp (text : string) : Prop :=
  exists (o : Json.JObject) (ts : string),
    text = Json.stringify o /\
    Json.get "timestamp" o = Some (Json.JStr ts) /\
    DateFmt.isISO8601 ts = true.

(** Whether the validators of a request match the entity tag of the
    body that [res.json(o)] sends with the status left at 200. *)
Definition freshFor (env : ProcessEnv) (req : Express.Request)
    (o : Json.JObject) : bool :=
  Express.reqFresh (etagPrecedence env) req 200
                   (Etag.weak (Json.stringify o)).

(** What the client of a GET request receives from [res.json(o)] with the
    status left at 200: the object, or 304 without a body when the
    request is fresh. *)
Definition jsonAnswer (env : ProcessEnv) (req : Express.Request)
    (o : Json.JObject) : Express.Response :=
  if freshFor env req o then Express.mkResponse 304 Express.BEmpty
  else Express.mkResponse 200 (Express.BJson o).

(** *** Example runs *)

(** An environment for the examples: no variables set, UTC, the fresh
    package of Express 4, [Math.random()] always [r]. *)
Definition envWithRandom (r : Q) : ProcessEnv :=
  mkProcessEnv None None "/app" 0 false (fun _ => r).

(** A request that enters at 2023-11-14T22:13:20.000Z and completes
    after 5 ms. *)
Definition quickTiming : Timing :=
  mkTiming (mkInstant 1700000000000 0) (mkInstant 1700000000000 0)
           (mkInstant 1700000000001 1) (mkInstant 1700000000005 5)
           (mkInstant 1700000000005 5) (mkInstant 1700000000005 5).

(** A request that takes two seconds, during which the system clock is
    set back by three seconds. *)
Definition clockSetBack : Timing :=
  mkTiming (mkInstant 1700000005000 0) (mkInstant 1700000005000 0)
           (mkInstant 1700000005001 1) (mkInstant 1700000004000 2000)
           (mkInstant 1700000004000 2000) (mkInstant 1700000004000 2000).

(** Runs from the initial state, for the examples: one request served
    by a variant. *)
Definition runWith (v : Variant) (r : Q) (t : Timing)
    (req : Express.Request) : Express.Response * World :=
  handleRequest v (envWithRandom r) t req startWorld.

Definition runFrom (v : Variant) (r : Q) (t : Timing)
    (method path : string) : Express.Response * World :=
  runWith v r t (Express.plain method path).

(** [s] with every apostrophe replaced by a double quote, to write JSON
    texts in the examples. *)
Fixpoint dquoted (s : string) : string :=
  match s with
  | EmptyString => EmptyString
  | String c s' =>
      String (if Ascii.eqb c "'" then "034"%char else c) (dquoted s')
  end.

(** The entity tag that Express gives to the body of [GET /normal]. *)
Definition normalTag : string :=
  "W/" +:+ Json.dq +:+ "2b-dZCBqGA/X++hX2ZJetDxACfQcpw" +:+ Json.dq.

(** [GET /normal] by a client that holds the response and asks whether
    it has changed. *)
Definition revalidation : Express.Request :=
  Express.mkRequest "GET" "/normal"
                    (Express.mkHeaders (Some normalTag) None None).

(** A GET request with [If-None-Match: *]. *)
Definition ifNoneMatchAny (path : string) : Express.Request :=
  Express.mkRequest "GET" path (Express.mkHeaders (Some "*") None None).

(** *** Sequences of requests, logger calls and transports *)

(** How many of the served requests were given the labels [l]. *)
Definition labelled (l : Prom.Labels) (rs : list (Timing * Express.Request))
    (ress : list Express.Response) : nat :=
  length (List.filter
            (fun p => bool_decide (labelsOf (snd (fst p)) (snd p) = l))
            (combine rs ress)).

(** A call of the logger: the clock reading, the level, the message and
    the metadata. *)
Definition LogCall : Type := Z * Winston.Level * string * Json.JObject.

Definition callTime (c : LogCall) : Z :=
  let '(now, _, _, _) := c in now.

Definition callLevel (c : LogCall) : Winston.Level :=
  let '(_, lvl, _, _) := c in lvl.

Definition callEvent (c : LogCall) : Event :=
  let '(_, lvl, message, meta) := c in EvLog lvl message meta.

(** What the transports of a logger are given for a call. *)
Definition writeCall (lg : Winston.Logger) (c : LogCall)
  : list (Winston.Transport * string) :=
  let '(now, lvl, message, meta) := c in Winston.log lg now lvl message meta.

Definition isConsole (tr : Winston.Transport) : bool :=
  match tr with Winston.Console _ => true | _ => false end.

(** The file that takes records of every severity the program logs:
    [application-%DATE%.log] of [src/index.js], [app.log] of
    [src/unnamed/part_000]. *)
Definition isMainFile (tr : Winston.Transport) : bool :=
  match tr with
  | Winston.File _ None => true
  | Winston.DailyRotateFile _ _ _ (Some Winston.info) => true
  | _ => false
  end.

(** [error-%DATE%.log] of [src/index.js]. *)
Definition isErrorFile (tr : Winston.Transport) : bool :=
  match tr with
  | Winston.DailyRotateFile _ _ _ (Some Winston.error) => true
  | _ => false
  end.

(** The texts given to the transports selected by [p], oldest first. *)
Definition textsTo (p : Winston.Transport -> bool)
    (ws : list (Winston.Transport * string)) : list string :=
  map snd (List.filter (fun e => p (fst e)) ws).

(** The counter and the histogram count of a state agree on a label
    combination. *)
Definition countsAgree (w : World) (l : Prom.Labels) : Prop :=
  Prom.s_count (Prom.seriesOf (responseTimeHistogram w) l)
  = Prom.counterValue (requestCounter w) l.

(** The severities at which the program calls the logger. *)
Definition programLevel (c : LogCall) : Prop :=
  callLevel c = Winston.info \/ callLevel c = Winston.error.

(** *** The text of a record *)

Definition hasKey (k : string) (o : Json.JObject) : bool :=
  existsb (fun kv => String.eqb k (fst kv)) o.

Fixpoint distinctKeys (o : Json.JObject) : bool :=
  match o with
  | [] => true
  | kv :: o' => negb (hasKey (fst kv) o') && distinctKeys o'
  end.

(** A call as the program makes them: the keys of the metadata are
    distinct and none of them is [timestamp], [level] or [message], and a
    message that comes with metadata holds no format token. *)
Definition plainCall (c : LogCall) : bool :=
  let '(_, _, message, meta) := c in
  match meta with
  | [] => true
  | _ => negb (Winston.hasFormatToken message)
  end
  && distinctKeys meta
  && negb (hasKey "timestamp" meta) && negb (hasKey "level" meta)
  && negb (hasKey "message" meta).

(** The line of [src/index.js] for a call: the local time of the call as
    [YYYY-MM-DD HH:mm:ss], the level in its colour between brackets, the
    message, a blank, and the metadata as JSON text unless there is
    none. *)
Definition printfLine (env : ProcessEnv) (c : LogCall) : string :=
  let '(now, lvl, message, meta) := c in
  DateFmt.formatLocal (utcOffsetMin env) now +:+ " [" +:+
  Winston.esc +:+ "[" +:+ Winston.colorCode lvl +:+ "m" +:+
  Winston.levelName lvl +:+ Winston.esc +:+ "[39m" +:+ "]: " +:+
  message +:+ " " +:+
  match meta with
  | [] => EmptyString
  | _ => Json.stringify meta
  end.

(** The line of [src/unnamed/part_000] for a call: the JSON text of the
    metadata together with the level, the message and the time of the
    call as an ISO-8601 [timestamp], the keys in sorted order. *)
Definition jsonLine (c : LogCall) : string :=
  let '(now, lvl, message, meta) := c in
  Json.stringify
    (Json.sortKeys
       (meta ++ [ ("level", Json.JStr (Winston.levelName lvl));
                  ("message", Json.JStr message);
                  ("timestamp", Json.JStr (DateFmt.toISOString now)) ])).

Definition lineOf (v : Variant) (env : ProcessEnv) (c : LogCall) : string :=
  match v with
  | IndexJs => printfLine env c
  | Part000Js => jsonLine c
  end.

(** The transports of a logger that take records of a level. *)
Definition takers (lg : Winston.Logger) (lvl : Winston.Level)
  : list Winston.Transport :=
  List.filter (fun tr => Winston.accepts lg tr lvl) (Winston.transports lg).

(** The records expected for a sequence of calls: for each call, its
    line for every transport that takes its level. *)
Definition recordsOf (v : Variant) (env : ProcessEnv) (calls : list LogCall)
  : list (Winston.Transport * string) :=
  flat_map (fun c => map (fun tr => (tr, lineOf v env c))
                         (takers (loggerOf v env) (callLevel c)))
           calls.

(** The readings of the clock that stamp the records of a request. *)
Definition recordReadings (t : Timing) : list Z :=
  [wall (tCalled t); wall (tSent t); wall (tCompleted t)].

(** * Properties *)

(** ** The histogram *)

Section Histogram.
Import Prom.

Lemma seriesOf_observe_same l v h :
  seriesOf (observe l v h) l = observeSeries v (seriesOf h l).
Proof. unfold seriesOf at 1, observe; simpl. by rewrite lookup_insert_eq. Qed.

Lemma seriesOf_observe_other l l' v h :
  l' <> l -> seriesOf (observe l' v h) l = seriesOf h l.
Proof.
  intros Hne. unfold seriesOf, observe; simpl.
  by rewrite lookup_insert_ne.
Qed.

Lemma seriesOf_observeAll l obs : forall h,
  seriesOf (observeAll obs h) l = observeMany (valuesFor l obs) (seriesOf h l).
Proof.
  induction obs as [|[l' v] obs IH]; intros h; [reflexivity|].
  unfold observeAll, valuesFor in *; simpl.
  rewrite IH. case_bool_decide as Hl; simpl.
  - subst l'. by rewrite seriesOf_observe_same.
  - by rewrite seriesOf_observe_other.
Qed.

Lemma countLe_cons b v vs :
  countLe b (v :: vs) = (if Qle_bool v b then 1 else 0) + countLe b vs.
Proof. unfold countLe; simpl. destruct (Qle_bool v b); simpl; lia. Qed.

Lemma observeMany_count vs : forall s,
  s_count (observeMany vs s) = s_count s + Z.of_nat (length vs).
Proof.
  induction vs as [|v vs IH]; intros s; simpl; [lia|].
  rewrite IH; simpl. lia.
Qed.

Lemma observeMany_sum vs : forall s,
  s_sum (observeMany vs s) = fold_left Qplus vs (s_sum s).
Proof. induction vs as [|v vs IH]; intros s; simpl; [done|]. by rewrite IH. Qed.

Lemma observeMany_buckets vs : forall s,
  s_buckets (observeMany vs s)
  = map (fun bc => (fst bc, snd bc + countLe (fst bc) vs)) (s_buckets s).
Proof.
  induction vs as [|v vs IH]; intros s; simpl.
  - unfold countLe; simpl. rewrite <- (map_id (s_buckets s)) at 1.
    apply map_ext. intros [b c]; simpl. f_equal; lia.
  - rewrite IH; simpl. rewrite map_map. apply map_ext.
    intros [b c]. rewrite countLe_cons. unfold bump; simpl.
    destruct (Qle_bool v b); simpl; f_equal; lia.
Qed.

Lemma countLe_mono a b vs : (a <= b)%Q -> countLe a vs <= countLe b vs.
Proof.
  intros Hab. induction vs as [|v vs IH]; [done|].
  rewrite !countLe_cons.
  destruct (Qle_bool v a) eqn:Ha; [|destruct (Qle_bool v b); lia].
  apply Qle_bool_iff in Ha.
  assert (Qle_bool v b = true) as ->; [|lia].
  apply Qle_bool_iff. by eapply Qle_trans.
Qed.

Lemma countLe_length b vs : countLe b vs <= Z.of_nat (length vs).
Proof.
  induction vs as [|v vs IH]; [done|].
  rewrite countLe_cons; simpl length. destruct (Qle_bool v b); lia.
Qed.

Lemma Qltb_lt a b : Num.Qltb a b = true <-> (a < b)%Q.
Proof.
  unfold Num.Qltb. rewrite negb_true_iff. split.
  - intros H. apply Qnot_le_lt. intros Hle.
    apply Qle_bool_iff in Hle. congruence.
  - intros H. destruct (Qle_bool b a) eqn:E; [|done].
    apply Qle_bool_iff in E. exfalso. by eapply Qlt_not_le.
Qed.

Lemma strictlyIncreasing_lookup bs : strictlyIncreasing bs = true ->
  forall i j x y, (i < j)%nat -> bs !! i = Some x -> bs !! j = Some y ->
                  (x < y)%Q.
Proof.
  induction bs as [|b bs IH]; intros Hs i j x y Hij Hi Hj; [done|].
  destruct bs as [|b' bs].
  { destruct j as [|j]; [lia|]. by destruct j. }
  simpl in Hs. apply andb_true_iff in Hs as [Hbb' Hs].
  apply Qltb_lt in Hbb'.
  destruct j as [|j]; [lia|]. simpl in Hj.
  destruct i as [|i]; simpl in Hi.
  - injection Hi as <-.
    destruct j as [|j]; simpl in Hj.
    + injection Hj as <-. exact Hbb'.
    + eapply Qlt_trans; [exact Hbb'|].
      eapply (IH Hs 0%nat (S j)); [lia|done|done].
  - eapply (IH Hs i j); [lia|done|done].
Qed.

End Histogram.

Section HistogramClaim.
Import Prom.

Lemma cumulative_exposed bs vs :
  strictlyIncreasing bs = true ->
  cumulative (map (fun b => (Le b, countLe b vs)) bs
              ++ [(PlusInf, Z.of_nat (length vs))]).
Proof.
  intros Hs i j bi ci bj cj Hij Hi Hj.
  assert (Hlen : length (map (fun b => (Le b, countLe b vs)) bs) = length bs)
    by apply length_map.
  destruct (decide (j < length bs)%nat) as [Hj'|Hj'].
  - rewrite lookup_app_l in Hi by lia. rewrite lookup_app_l in Hj by lia.
    rewrite list_lookup_fmap in Hi. rewrite list_lookup_fmap in Hj.
    destruct (bs !! i) as [x|] eqn:Ex; [|done].
    destruct (bs !! j) as [y|] eqn:Ey; [|done].
    simpl in Hi, Hj. injection Hi as <- <-. injection Hj as <- <-.
    pose proof (strictlyIncreasing_lookup bs Hs i j x y Hij Ex Ey) as Hxy.
    split; [exact Hxy|]. apply countLe_mono. by apply Qlt_le_weak.
  - rewrite lookup_app_r in Hj by lia. rewrite Hlen in Hj.
    destruct (j - length bs)%nat as [|k] eqn:Ek; [|by destruct k].
    simpl in Hj. injection Hj as <- <-.
    rewrite lookup_app_l in Hi by lia.
    rewrite list_lookup_fmap in Hi.
    destruct (bs !! i) as [x|]; [|done].
    simpl in Hi. injection Hi as <- <-.
    split; [exact I|]. apply countLe_length.
Qed.

Lemma newHistogram_inv name help lns bs h0 :
  newHistogram name help lns bs = inr h0 ->
  strictlyIncreasing bs = true /\ h_upperBounds h0 = bs /\ h_series h0 = ∅.
Proof.
  unfold newHistogram. destruct (strictlyIncreasing bs); [|done].
  intros [= <-]. done.
Qed.

Lemma series_after name help lns bs h0 obs l :
  newHistogram name help lns bs = inr h0 ->
  seriesOf (observeAll obs h0) l
  = observeMany (valuesFor l obs) (emptySeries bs).
Proof.
  intros H. apply newHistogram_inv in H as (_ & Hb & He).
  rewrite seriesOf_observeAll. unfold seriesOf.
  by rewrite He, lookup_empty, Hb.
Qed.

(** C4.  A histogram that was created with valid bounds, after any
    sequence of observations.  Each observation for a label combination
    adds one to the count of its series, adds the value to the sum and
    adds one to every bucket whose bound is at least the value, and an
    observation for other labels leaves the series as it is.  Hence the
    series holds the number of its observations, their sum, and per
    bound the number of values that do not exceed it; along the exposed
    buckets the bounds increase and the counts never decrease; and the
    last exposed bucket is [+Inf] with the total count. *)
Theorem histogram_cumulative (name help : string) (labelNames : list string)
    (bounds : list Q) (h0 : Histogram) (obs : list (Labels * Q))
    (l : Labels) :
  newHistogram name help labelNames bounds = inr h0 ->
  let s := seriesOf (observeAll obs h0) l in
  (forall h v,
      let s0 := seriesOf h l in
      let s1 := seriesOf (observe l v h) l in
      s_count s1 = s_count s0 + 1 /\
      s_sum s1 = (s_sum s0 + v)%Q /\
      s_buckets s1
      = map (fun bc => (fst bc, if Qle_bool v (fst bc)
                                then snd bc + 1 else snd bc))
            (s_buckets s0)) /\
  (forall h l' v, l' <> l -> seriesOf (observe l' v h) l = seriesOf h l) /\
  s_count s = Z.of_nat (length (valuesFor l obs)) /\
  s_sum s = fold_left Qplus (valuesFor l obs) 0%Q /\
  s_buckets s = map (fun b => (b, countLe b (valuesFor l obs))) bounds /\
  cumulative (exposedBuckets s) /\
  last (exposedBuckets s) = Some (PlusInf, s_count s).
Proof.
  intros Hnew s.
  assert (Hs : s = observeMany (valuesFor l obs) (emptySeries bounds))
    by (by eapply series_after).
  assert (Hbuckets :
            s_buckets s
            = map (fun b => (b, countLe b (valuesFor l obs))) bounds).
  { rewrite Hs, observeMany_buckets. simpl. rewrite map_map.
    apply map_ext. intros b; simpl. f_equal; lia. }
  assert (Hcount : s_count s = Z.of_nat (length (valuesFor l obs))).
  { rewrite Hs, observeMany_count. simpl. lia. }
  split; [|split; [|split; [|split; [|split; [|split]]]]].
  - intros h v s0 s1. subst s0 s1. rewrite seriesOf_observe_same. simpl.
    split; [done|]. split; [done|].
    apply map_ext. intros [b c]. unfold bump; simpl.
    by destruct (Qle_bool v b).
  - intros h l' v Hne. by apply seriesOf_observe_other.
  - exact Hcount.
  - rewrite Hs, observeMany_sum. done.
  - exact Hbuckets.
  - unfold exposedBuckets. rewrite Hbuckets, Hcount, map_map. simpl.
    apply cumulative_exposed.
    by apply newHistogram_inv in Hnew as (? & _).
  - unfold exposedBuckets. by rewrite last_snoc.
Qed.

Lemma histogram_cumulative_witness :
  exists h0,
    Index.responseTimeHistogram = inr h0 /\
    let l := mkLabels "GET" "/normal" 200 in
    let s := seriesOf (observeAll [(l, 1 # 4); (l, 3)]%Q h0) l in
    s_count s = 2 /\ cumulative (exposedBuckets s) /\
    last (exposedBuckets s) = Some (PlusInf, 2).
Proof.
  eexists. split; [reflexivity|].
  pose proof (histogram_cumulative
                "http_response_time_seconds" "HTTP response time in seconds"
                ["method"; "endpoint"; "status"] Index.buckets _
                [(mkLabels "GET" "/normal" 200, 1 # 4);
                 (mkLabels "GET" "/normal" 200, 3)]%Q
                (mkLabels "GET" "/normal" 200) eq_refl)
    as (_ & _ & Hc & _ & _ & Hm & Hl).
  split; [exact Hc|]. split; [exact Hm|]. exact Hl.
Defined.

End HistogramClaim.

(** ** The request pipeline *)

Ltac unfold_ops :=
  unfold mbind, M_bind, mret, M_ret, sendJson, sendText, sendMetrics,
    endWith, sleep, emit, counterInc, histogramObserve, logWith, mathRandom,
    consoleLog in *.

Ltac project :=
  cbn [requestCounter responseTimeHistogram written stdout draws trace
       fst snd Express.statusCode Express.body] in *.

Ltac run :=
  repeat (unfold_ops; project;
          try match goal with
              | |- context [if ?b then _ else _] => destruct b eqn:?
              end).

Section Pipeline.
Import Express.

(** The status that [res.send] leaves. *)
Lemma sendStatus_500 p req text : sendStatus p req 500 text = 500.
Proof.
  unfold sendStatus, reqFresh.
  change ((200 <=? 500) && (500 <? 300) || (500 =? 304)) with false.
  by rewrite andb_false_r.
Qed.

Lemma sendStatus_cases p req status text :
  sendStatus p req status text = status \/ sendStatus p req status text = 304.
Proof. unfold sendStatus. destruct (reqFresh _ _ _ _); auto. Qed.

Lemma sendStatus_not_get p req status text :
  String.eqb (method req) "GET" || String.eqb (method req) "HEAD" = false ->
  sendStatus p req status text = status.
Proof. unfold sendStatus, reqFresh. by intros ->. Qed.

Lemma sendBody_500 req b : sendBody req 500 b = sent req b.
Proof. reflexivity. Qed.

Lemma fresh_unconditional p h etag :
  given (ifNoneMatch h) = None -> fresh p h etag = false.
Proof.
  intros H. unfold fresh. rewrite H.
  destruct (given (ifModifiedSince h)); [|done].
  by destruct (match given (cacheControl h) with
               | Some cc => noCache cc
               | None => false
               end).
Qed.

Lemma freshFor_unconditional env req o :
  given (ifNoneMatch (headers req)) = None -> freshFor env req o = false.
Proof.
  intros H. unfold freshFor, reqFresh.
  rewrite (fresh_unconditional _ _ _ H). apply andb_false_r.
Qed.

Lemma jsonAnswer_unconditional env req o :
  given (ifNoneMatch (headers req)) = None ->
  jsonAnswer env req o = mkResponse 200 (BJson o).
Proof. intros H. unfold jsonAnswer. by rewrite freshFor_unconditional. Qed.

(** What [res.json(o)] hands to the client of a GET request. *)
Lemma jsonAnswer_eq env req o :
  method req = "GET" ->
  mkResponse (sendStatus (etagPrecedence env) req 200 (Json.stringify o))
             (sendBody req
                (sendStatus (etagPrecedence env) req 200 (Json.stringify o))
                (BJson o))
  = jsonAnswer env req o.
Proof.
  intros Hm. unfold jsonAnswer, freshFor, sendStatus.
  destruct (reqFresh _ _ _ _); [reflexivity|].
  unfold sendBody, sent. by rewrite Hm.
Qed.

Lemma weak_normalBody :
  Etag.weak (Json.stringify
               [("message", Json.JStr "This is a normal API response")])
  = normalTag.
Proof. by vm_compute. Qed.

Lemma handleRequest_finished v env t req w :
  handleRequest v env t req w
  = let (res, w1) := routeOf v env t req w in
    (res, finished v env t req res w1).
Proof.
  destruct v; unfold handleRequest, routeOf, Index.handleRequest,
    Part000.handleRequest, Index.middleware, Part000.middleware,
    mbind, M_bind, mret, M_ret.
  - destruct (Index.route env t req w) as [res w1].
    unfold Index.onFinish, finished. unfold_ops. project.
    by rewrite <- !app_assoc.
  - destruct (Part000.route env req w) as [res w1].
    unfold Part000.onFinish, finished. unfold_ops. project.
    by rewrite <- !app_assoc.
Qed.

Lemma route_handlerOnly v env t req w :
  handlerOnly w (snd (routeOf v env t req w)).
Proof.
  unfold handlerOnly.
  destruct v; unfold routeOf, Index.route, Part000.route, Index.normal,
    Part000.normal, Index.abnormal, Part000.abnormal, Index.metrics,
    Part000.metrics, unhandled;
    run;
    (split; [reflexivity|]); (split; [reflexivity|]);
    (split; [reflexivity|]);
    rewrite <- ?app_assoc; eexists; (split; [reflexivity|]);
    split; try reflexivity; unfold count; simpl; lia.
Qed.

Lemma handleRequest_split v env t req w :
  handleRequest v env t req w
  = (fst (routeOf v env t req w),
     finished v env t req (fst (routeOf v env t req w))
              (snd (routeOf v env t req w))).
Proof. rewrite handleRequest_finished. by destruct (routeOf v env t req w). Qed.

Lemma handleRequest_fst v env t req w :
  fst (handleRequest v env t req w) = fst (routeOf v env t req w).
Proof. by rewrite handleRequest_split. Qed.

Lemma counterValue_inc l c :
  Prom.counterValue (Prom.inc l c) l = Prom.counterValue c l + 1.
Proof.
  unfold Prom.counterValue at 1, Prom.inc; simpl.
  by rewrite lookup_insert_eq.
Qed.

Lemma counterValue_inc_other l l' c :
  l' <> l -> Prom.counterValue (Prom.inc l' c) l = Prom.counterValue c l.
Proof.
  intros Hne. unfold Prom.counterValue, Prom.inc; simpl.
  by rewrite lookup_insert_ne.
Qed.

Lemma count_app p es es' :
  count p (es ++ es') = (count p es + count p es')%nat.
Proof. unfold count. by rewrite List.filter_app, length_app. Qed.

Lemma count_quiet p hs :
  (forall e, p e = true -> quiet e = false) ->
  forallb quiet hs = true -> count p hs = 0%nat.
Proof.
  intros Hp. induction hs as [|e hs IH]; [done|].
  simpl. intros [He Hhs]%andb_true_iff. unfold count in *; simpl.
  destruct (p e) eqn:E; [|by apply IH].
  apply Hp in E. congruence.
Qed.

Lemma eventsSince_app w w' es :
  trace w' = trace w ++ es -> eventsSince w w' = es.
Proof. unfold eventsSince. intros ->. by rewrite drop_app_length. Qed.

(** The calls of one request: those of the handler, then the three of
    the 'finish' listener. *)
Lemma handleRequest_events v env t req w :
  exists hs,
    forallb quiet hs = true /\
    draws (snd (handleRequest v env t req w))
    = (draws w + count isRandom hs)%nat /\
    let res := fst (handleRequest v env t req w) in
    let durationMs := wall (tFinish t) - wall (tEntry t) in
    eventsSince w (snd (handleRequest v env t req w))
    = hs ++ [ EvInc (labelsOf req res);
              EvObserve (labelsOf req res) (Num.secs durationMs);
              EvLog Winston.info "Request completed"
                    (completedMeta req res durationMs (wall (tTime t))) ].
Proof.
  rewrite handleRequest_finished.
  pose proof (route_handlerOnly v env t req w) as (_ & _ & _ & hs & Ht & Hq & Hd).
  destruct (routeOf v env t req w) as [res w1]. cbn [fst snd] in *.
  exists hs. split; [done|]. split; [done|].
  apply eventsSince_app. unfold finished; project.
  rewrite Ht. by rewrite <- app_assoc.
Qed.

(** C1.  In both variants, the calls made for a request are those of
    the handler, none of which is a counter increment, a histogram
    observation or a 'Request completed' record, followed by exactly
    one [inc], one [observe] and one [logger.info] of the 'finish'
    listener.  The two metric calls carry the same labels, and the
    method, endpoint and status of the log record are the values of
    these labels. *)
Theorem middleware_records_once (v : Variant) (env : ProcessEnv)
    (t : Timing) (req : Request) (w : World) :
  let res := fst (handleRequest v env t req w) in
  let es := eventsSince w (snd (handleRequest v env t req w)) in
  count isInc es = 1%nat /\
  count isObserve es = 1%nat /\
  count isCompleted es = 1%nat /\
  exists hs l d meta,
    es = hs ++ [EvInc l; EvObserve l d;
                EvLog Winston.info "Request completed" meta] /\
    forallb quiet hs = true /\
    Json.get "method" meta = Some (Json.JStr (Prom.method l)) /\
    Json.get "endpoint" meta = Some (Json.JStr (Prom.endpoint l)) /\
    Json.get "status" meta = Some (Json.JInt (Prom.status l)) /\
    Prom.status l = statusCode res.
Proof.
  intros res es.
  destruct (handleRequest_events v env t req w) as (hs & Hq & _ & Hes).
  cbv zeta in Hes. fold res es in Hes.
  rewrite Hes, !count_app.
  rewrite !(count_quiet _ hs)
    by (done || (intros []; simpl; try done; by intros ->)).
  split; [done|]. split; [done|]. split; [done|].
  eexists hs, _, _, _. split; [reflexivity|]. by repeat split.
Qed.

Lemma flat_map_quiet {A} (f : Event -> list A) hs :
  (forall e, quiet e = true -> f e = []) ->
  forallb quiet hs = true -> flat_map f hs = [].
Proof.
  intros Hf. induction hs as [|e hs IH]; [done|].
  simpl. intros [He Hhs]%andb_true_iff. by rewrite (Hf e He), IH.
Qed.

Lemma endpointOf_quiet e : quiet e = true -> endpointOf e = [].
Proof.
  destruct e; simpl; try done.
  by intros ->%negb_true_iff.
Qed.

Lemma durationOf_quiet e : quiet e = true -> durationOf e = [].
Proof.
  destruct e; simpl; try done.
  by intros ->%negb_true_iff.
Qed.

Lemma route_normal v env t h w :
  fst (routeOf v env t (mkRequest "GET" "/normal" h) w)
  = jsonAnswer env (mkRequest "GET" "/normal" h)
               [("message", Json.JStr "This is a normal API response")].
Proof.
  destruct v; unfold routeOf, Index.route, Part000.route;
    change (handlesGet "/normal" (mkRequest "GET" "/normal" h)) with true;
    cbv iota; unfold Index.normal, Part000.normal; unfold_ops; project;
    by apply jsonAnswer_eq.
Qed.

Lemma one_request_counter v env t req w l :
  Prom.counterValue (requestCounter (snd (handleRequest v env t req w))) l
  = Prom.counterValue (requestCounter w) l
    + (if bool_decide (labelsOf req (fst (handleRequest v env t req w)) = l)
       then 1 else 0).
Proof.
  rewrite handleRequest_split. cbn [fst snd].
  pose proof (route_handlerOnly v env t req w) as (Hc & _).
  unfold finished; project. rewrite Hc.
  case_bool_decide as Hl.
  - rewrite Hl. apply counterValue_inc.
  - rewrite counterValue_inc_other by done. lia.
Qed.

(** C3, as stated, fails.  From the initial state of either variant,
    [GET /normal] by a client that sends the entity tag of the body in
    [If-None-Match] is answered with status 304 and no body, and the
    request is counted under status 304, not 200. *)
Lemma conditional_normal_counterexample :
  Index.init = inr startWorld /\
  Part000.init = inr startWorld /\
  method revalidation = "GET" /\
  path revalidation = "/normal" /\
  fst (runWith IndexJs 0 quickTiming revalidation) = mkResponse 304 BEmpty /\
  fst (runWith Part000Js 0 quickTiming revalidation)
  = mkResponse 304 BEmpty /\
  statusCode (fst (runWith IndexJs 0 quickTiming revalidation)) <> 200 /\
  bodyText (body (fst (runWith IndexJs 0 quickTiming revalidation)))
  <> Some normalBody /\
  Prom.counterValue
    (requestCounter (snd (runWith IndexJs 0 quickTiming revalidation)))
    (Prom.mkLabels "GET" "/normal" 200)
  = Prom.counterValue (requestCounter startWorld)
                      (Prom.mkLabels "GET" "/normal" 200) /\
  Prom.counterValue
    (requestCounter (snd (runWith IndexJs 0 quickTiming revalidation)))
    (Prom.mkLabels "GET" "/normal" 304)
  = Prom.counterValue (requestCounter startWorld)
                      (Prom.mkLabels "GET" "/normal" 304) + 1.
Proof.
  assert (H1 : fst (runWith IndexJs 0 quickTiming revalidation)
               = mkResponse 304 BEmpty) by (by vm_compute).
  assert (H2 : fst (runWith Part000Js 0 quickTiming revalidation)
               = mkResponse 304 BEmpty) by (by vm_compute).
  split; [reflexivity|]. split; [reflexivity|].
  split; [reflexivity|]. split; [reflexivity|].
  split; [exact H1|]. split; [exact H2|].
  rewrite H1. split; [discriminate|]. split; [discriminate|].
  unfold runWith in *. rewrite !one_request_counter, H1.
  split; [rewrite bool_decide_eq_false_2 by discriminate; lia|].
  by rewrite bool_decide_eq_true_2.
Qed.

(** C3, amended.  In both variants [GET /normal] is answered with status
    200 and the body [{"message":"This is a normal API response"}],
    unless the request is fresh, that is, unless its validators match the
    entity tag of that body: then it is answered with status 304 and no
    body.  A request without [If-None-Match] is never fresh; a request
    whose [If-None-Match] is the entity tag of the body, without
    [If-Modified-Since] and [Cache-Control], is.  Afterwards the counter
    for method GET, endpoint /normal and the status of the response has
    its prior value plus one. *)
Theorem normal_request (v : Variant) (env : ProcessEnv) (t : Timing)
    (h : Headers) (w : World) :
  let req := mkRequest "GET" "/normal" h in
  let res := fst (handleRequest v env t req w) in
  let w' := snd (handleRequest v env t req w) in
  let l := Prom.mkLabels "GET" "/normal" (statusCode res) in
  res = jsonAnswer env req
                   [("message", Json.JStr "This is a normal API response")] /\
  (statusCode res = 200 /\ bodyText (body res) = Some normalBody \/
   res = mkResponse 304 BEmpty) /\
  (given (ifNoneMatch h) = None ->
   statusCode res = 200 /\ bodyText (body res) = Some normalBody) /\
  (ifNoneMatch h = Some normalTag -> ifModifiedSince h = None ->
   cacheControl h = None -> res = mkResponse 304 BEmpty) /\
  (exists w0, initOf v = inr w0 /\
              Prom.c_name (requestCounter w0) = "http_requests_total") /\
  Prom.c_name (requestCounter w') = Prom.c_name (requestCounter w) /\
  Prom.counterValue (requestCounter w') l
  = Prom.counterValue (requestCounter w) l + 1.
Proof.
  intros req res w' l.
  assert (Hres : res = jsonAnswer env req
                         [("message",
                           Json.JStr "This is a normal API response")]).
  { subst res. rewrite handleRequest_fst. apply route_normal. }
  assert (Hcount : Prom.counterValue (requestCounter w') l
                   = Prom.counterValue (requestCounter w) l + 1).
  { subst w' l. rewrite one_request_counter. fold res.
    by rewrite bool_decide_eq_true_2. }
  assert (Hname : Prom.c_name (requestCounter w')
                  = Prom.c_name (requestCounter w)).
  { subst w'. rewrite handleRequest_split. cbn [snd].
    pose proof (route_handlerOnly v env t req w) as (Hc & _).
    unfold finished; project. by rewrite Hc. }
  clearbody res w' l.
  split; [exact Hres|].
  split.
  { rewrite Hres. unfold jsonAnswer.
    destruct (freshFor _ _ _); [by right|by left]. }
  split.
  { intros Hnone. rewrite Hres, jsonAnswer_unconditional by exact Hnone.
    by split. }
  split.
  { destruct h as [nm since cc]. cbn [ifNoneMatch ifModifiedSince cacheControl].
    intros -> -> ->. rewrite Hres. unfold jsonAnswer, freshFor.
    rewrite weak_normalBody.
    destruct (etagPrecedence env); reflexivity. }
  split; [destruct v; eexists; split; reflexivity|].
  split; [exact Hname|exact Hcount].
Qed.

Lemma normal_request_witness :
  statusCode (fst (runFrom IndexJs 0 quickTiming "GET" "/normal")) = 200 /\
  bodyText (body (fst (runFrom IndexJs 0 quickTiming "GET" "/normal")))
  = Some normalBody /\
  fst (runWith IndexJs 0 quickTiming revalidation) = mkResponse 304 BEmpty.
Proof.
  pose proof (normal_request IndexJs (envWithRandom 0) quickTiming noHeaders
                             startWorld) as (_ & _ & Hplain & _).
  pose proof (normal_request IndexJs (envWithRandom 0) quickTiming
                             (mkHeaders (Some normalTag) None None)
                             startWorld) as (_ & _ & _ & Hfresh & _).
  destruct (Hplain eq_refl) as [Hs Hb].
  split; [exact Hs|]. split; [exact Hb|].
  exact (Hfresh eq_refl eq_refl eq_refl).
Defined.

(** The endpoint values and the durations of the calls of a request. *)
Lemma handleRequest_endpoints v env t req w :
  endpointsUsed (eventsSince w (snd (handleRequest v env t req w)))
  = [path req; path req; path req].
Proof.
  destruct (handleRequest_events v env t req w) as (hs & Hq & _ & Hes).
  cbv zeta in Hes. rewrite Hes. unfold endpointsUsed.
  rewrite flat_map_app.
  by rewrite (flat_map_quiet _ hs endpointOf_quiet Hq).
Qed.

Lemma handleRequest_durations v env t req w :
  durationsRecorded (eventsSince w (snd (handleRequest v env t req w)))
  = [wallElapsed t; wallElapsed t].
Proof.
  destruct (handleRequest_events v env t req w) as (hs & Hq & _ & Hes).
  cbv zeta in Hes. rewrite Hes. unfold durationsRecorded.
  rewrite flat_map_app.
  by rewrite (flat_map_quiet _ hs durationOf_quiet Hq).
Qed.

Lemma init_startWorld v : initOf v = inr startWorld.
Proof. by destruct v. Qed.

(** C5, as stated, fails.  From the initial state of [src/index.js],
    [GET /normal/] is handled by the route [/normal] and labelled
    [/normal/], and [GET /users/42], which has no route, is labelled
    [/users/42]. *)
Lemma route_template_counterexample :
  Index.init = inr startWorld /\
  routeTemplate (plain "GET" "/normal/") = Some "/normal" /\
  endpointsUsed
    (eventsSince startWorld
       (snd (runFrom IndexJs 0 quickTiming "GET" "/normal/")))
  = ["/normal/"; "/normal/"; "/normal/"] /\
  ~ Forall (fun ep => routeTemplate (plain "GET" "/normal/") = Some ep)
      (endpointsUsed
         (eventsSince startWorld
            (snd (runFrom IndexJs 0 quickTiming "GET" "/normal/")))) /\
  routeTemplate (plain "GET" "/users/42") = None /\
  endpointsUsed
    (eventsSince startWorld
       (snd (runFrom IndexJs 0 quickTiming "GET" "/users/42")))
  = ["/users/42"; "/users/42"; "/users/42"].
Proof.
  unfold runFrom, runWith. rewrite !handleRequest_endpoints.
  split; [reflexivity|]. split; [reflexivity|]. split; [reflexivity|].
  split; [|by split].
  intros H. apply Forall_cons in H as [H _]. discriminate H.
Qed.

(** C5, amended.  In both variants and for every request, the endpoint
    label of the counter increment and of the histogram observation and
    the endpoint field of the 'Request completed' record are the path of
    the request as it was received. *)
Theorem endpoint_is_request_path (v : Variant) (env : ProcessEnv)
    (t : Timing) (req : Request) (w : World) :
  endpointsUsed (eventsSince w (snd (handleRequest v env t req w)))
  = [path req; path req; path req].
Proof. apply handleRequest_endpoints. Qed.

(** C6, as stated, fails.  When the system clock is set back by three
    seconds while a request that takes two seconds is in flight, the
    recorded duration is minus one second. *)
Lemma monotonic_duration_counterexample :
  Index.init = inr startWorld /\
  (monotonicElapsed clockSetBack == 2)%Q /\
  durationsRecorded
    (eventsSince startWorld
       (snd (runFrom IndexJs 0 clockSetBack "GET" "/normal")))
  = [(-1000 # 1000)%Q; (-1000 # 1000)%Q] /\
  ~ Forall (fun d => (d == monotonicElapsed clockSetBack)%Q)
      (durationsRecorded
         (eventsSince startWorld
            (snd (runFrom IndexJs 0 clockSetBack "GET" "/normal")))).
Proof.
  split; [reflexivity|]. split; [reflexivity|].
  unfold runFrom, runWith. rewrite handleRequest_durations.
  split; [reflexivity|].
  intros H. apply Forall_cons in H as [H _]. discriminate H.
Qed.

(** C6, amended.  In both variants and for every request, the duration
    given to the histogram and written to the 'Request completed' record
    is the reading of [Date.now()] at completion minus its reading at
    entry, divided by 1000; the monotonic clock plays no part. *)
Theorem duration_is_wall_clock_difference (v : Variant) (env : ProcessEnv)
    (t : Timing) (req : Request) (w : World) :
  durationsRecorded (eventsSince w (snd (handleRequest v env t req w)))
  = [ Num.secs (wall (tFinish t) - wall (tEntry t));
      Num.secs (wall (tFinish t) - wall (tEntry t)) ].
Proof. apply handleRequest_durations. Qed.

Lemma seriesOf_count_observe l v h :
  Prom.s_count (Prom.seriesOf (Prom.observe l v h) l)
  = Prom.s_count (Prom.seriesOf h l) + 1.
Proof. by rewrite seriesOf_observe_same. Qed.

Lemma route_metrics v env t req w :
  method req = "GET" -> path req = "/metrics" ->
  fst (routeOf v env t req w)
  = mkResponse 200 (BMetrics (requestCounter w) (responseTimeHistogram w)).
Proof.
  destruct req as [m p h]. cbn [method path]. intros -> ->. by destruct v.
Qed.

Lemma route_unregistered v env t req w :
  unregistered req = true ->
  fst (routeOf v env t req w) = mkResponse 404 (sent req BNotFound).
Proof.
  unfold unregistered, Index.routes. simpl.
  intros H%negb_true_iff.
  apply orb_false_iff in H as [H1 H].
  apply orb_false_iff in H as [H2 H].
  apply orb_false_iff in H as [H3 _].
  destruct v; unfold routeOf, Index.route, Part000.route, handlesGet,
    unhandled, Index.routes, Part000.routes; simpl;
    rewrite H1, H2, H3, !andb_false_r; reflexivity.
Qed.

Lemma console_accepts_info v env now message meta :
  In (Winston.Console None)
     (map fst (Winston.log (loggerOf v env) now Winston.info message meta)).
Proof.
  unfold Winston.log. rewrite map_map. simpl. rewrite map_id.
  apply filter_In.
  destruct v; simpl; unfold Winston.accepts; simpl.
  - split; [by left|]. by destruct (decide _).
  - split; [right; by left|done].
Qed.

(** C9.  In both variants the middleware takes part in every request,
    whatever its path: the counter and the count of the histogram series
    for the method, the received path and the status of the response grow
    by one, and a 'Request completed' record with that path is logged and
    given to the console, stamped with the reading of the clock at that
    call.  [GET /metrics] is such a request, with status 200 and the
    exposition of the registry as it was before, whatever its headers; so
    is a request to a path without a route, with status 404. *)
Theorem middleware_covers_every_path (v : Variant) (env : ProcessEnv)
    (t : Timing) (req : Request) (w : World) :
  let res := fst (handleRequest v env t req w) in
  let w' := snd (handleRequest v env t req w) in
  let l := Prom.mkLabels (method req) (path req) (statusCode res) in
  let now := wall (tCompleted t) in
  let meta := completedMeta req res (wall (tFinish t) - wall (tEntry t))
                            (wall (tTime t)) in
  Prom.counterValue (requestCounter w') l
  = Prom.counterValue (requestCounter w) l + 1 /\
  Prom.s_count (Prom.seriesOf (responseTimeHistogram w') l)
  = Prom.s_count (Prom.seriesOf (responseTimeHistogram w) l) + 1 /\
  (exists hs,
      eventsSince w w'
      = hs ++ [ EvInc l; EvObserve l (wallElapsed t);
                EvLog Winston.info "Request completed" meta ]) /\
  Json.get "endpoint" meta = Some (Json.JStr (path req)) /\
  (exists ws out,
      written w'
      = ws ++ Winston.log (loggerOf v env) now Winston.info
                          "Request completed" meta /\
      In (Winston.Console None, out)
         (Winston.log (loggerOf v env) now Winston.info
                      "Request completed" meta)) /\
  (method req = "GET" -> path req = "/metrics" ->
   res = mkResponse 200 (BMetrics (requestCounter w)
                                  (responseTimeHistogram w))) /\
  (unregistered req = true -> statusCode res = 404).
Proof.
  intros res w' l now meta.
  pose proof (handleRequest_events v env t req w) as (hs & _ & _ & Hes).
  cbv zeta in Hes. fold res w' in Hes.
  assert (Hfin : handleRequest v env t req w
                 = (fst (routeOf v env t req w),
                    finished v env t req (fst (routeOf v env t req w))
                             (snd (routeOf v env t req w)))).
  { rewrite handleRequest_finished. by destruct (routeOf v env t req w). }
  pose proof (route_handlerOnly v env t req w) as (Hc & Hh & _).
  assert (Hres : res = fst (routeOf v env t req w)) by (subst res; by rewrite Hfin).
  assert (Hw' : w' = finished v env t req res (snd (routeOf v env t req w)))
    by (subst w' res; by rewrite Hfin).
  split; [|split; [|split; [|split; [|split; [|split]]]]].
  - rewrite Hw'. unfold finished; project. rewrite Hc. apply counterValue_inc.
  - rewrite Hw'. unfold finished; project. rewrite Hh.
    apply seriesOf_count_observe.
  - by exists hs.
  - reflexivity.
  - pose proof (console_accepts_info v env now "Request completed" meta) as Hin.
    apply in_map_iff in Hin as ([tr out] & Htr & Hin). simpl in Htr. subst tr.
    exists (written (snd (routeOf v env t req w))), out.
    split; [by rewrite Hw'|done].
  - intros Hm Hp. rewrite Hres. by apply route_metrics.
  - intros Hun. rewrite Hres. by rewrite route_unregistered.
Qed.

Lemma middleware_covers_every_path_witness :
  unregistered (plain "GET" "/users/42") = true /\
  statusCode (fst (runFrom Part000Js 0 quickTiming "GET" "/users/42")) = 404 /\
  Prom.counterValue
    (requestCounter (snd (runFrom Part000Js 0 quickTiming "GET" "/users/42")))
    (Prom.mkLabels "GET" "/users/42" 404) = 1.
Proof.
  pose proof (middleware_covers_every_path
                Part000Js (envWithRandom 0) quickTiming
                (plain "GET" "/users/42") startWorld)
    as (Hc & _ & _ & _ & _ & _ & H404).
  split; [reflexivity|]. split; [exact (H404 eq_refl)|].
  rewrite (H404 eq_refl) in Hc. exact Hc.
Defined.

(** ** The randomized endpoint *)

Lemma route_abnormal v env t h w :
  let req := mkRequest "GET" "/abnormal" h in
  let r := random env (draws w) in
  let res := fst (routeOf v env t req w) in
  let w1 := snd (routeOf v env t req w) in
  exists hs,
    trace w1 = trace w ++ hs /\
    draws w1 = S (draws w) /\
    count isRandom hs = 1%nat /\
    In (EvRandom r) hs /\
    if Num.Qltb r Num.lit_0_3 then
      res = jsonAnswer env req [("message", Json.JStr "Fast response")] /\
      count isTimer hs = 0%nat
    else if Num.Qltb r Num.lit_0_6 then
      res = mkResponse 500 errorBody /\ count isTimer hs = 0%nat
    else
      res = jsonAnswer env req [("message", Json.JStr "Slow response")] /\
      count isTimer hs = 1%nat /\
      exists pre post,
        hs = pre ++ EvTimer 3000 :: EvSend (statusCode res) (body res) :: post /\
        count isTimer pre = 0%nat.
Proof.
  intros req r.
  assert (Hm : method req = "GET") by reflexivity.
  destruct v; unfold routeOf, Index.route, Part000.route.
  - change (handlesGet "/normal" req) with false.
    change (handlesGet "/abnormal" req) with true.
    clearbody req.
    cbv iota. unfold Index.abnormal. unfold_ops. project. fold r.
    destruct (Num.Qltb r Num.lit_0_3);
      [|destruct (Num.Qltb r Num.lit_0_6)]; unfold_ops; project;
      rewrite <- ?app_assoc; eexists; (split; [reflexivity|]);
      (split; [reflexivity|]); (split; [reflexivity|]);
      (split; [by left|]).
    + split; [by apply jsonAnswer_eq|done].
    + rewrite sendStatus_500, sendBody_500. unfold sent. by rewrite Hm.
    + split; [by apply jsonAnswer_eq|]. split; [done|].
      eexists [_; _], [_]. split; [reflexivity|done].
  - change (handlesGet "/normal" req) with false.
    change (handlesGet "/abnormal" req) with true.
    clearbody req.
    cbv iota. unfold Part000.abnormal. unfold_ops. project. fold r.
    destruct (Num.Qltb r Num.lit_0_3);
      [|destruct (Num.Qltb r Num.lit_0_6)]; unfold_ops; project;
      rewrite <- ?app_assoc; eexists; (split; [reflexivity|]);
      (split; [reflexivity|]); (split; [reflexivity|]);
      (split; [by left|]).
    + split; [by apply jsonAnswer_eq|done].
    + rewrite sendStatus_500, sendBody_500. unfold sent. by rewrite Hm.
    + split; [by apply jsonAnswer_eq|]. split; [done|].
      eexists [_], []. split; [reflexivity|done].
Qed.

Lemma Qltb_false a b : Num.Qltb a b = false <-> (b <= a)%Q.
Proof.
  unfold Num.Qltb. rewrite negb_false_iff. apply Qle_bool_iff.
Qed.

(** C2, as stated, fails.  From the initial state of either variant,
    [GET /abnormal] with [If-None-Match: *] and a draw of 0.1, in the
    fast band, is answered with status 304 and no body instead of the 200
    JSON success, and so is the same request with a draw of 0.9, in the
    slow band, after its delay; the requests are counted under status
    304. *)
Lemma conditional_abnormal_counterexample :
  Index.init = inr startWorld /\
  Part000.init = inr startWorld /\
  (1 # 10 < Num.lit_0_3)%Q /\
  fst (runWith IndexJs (1 # 10) quickTiming (ifNoneMatchAny "/abnormal"))
  = mkResponse 304 BEmpty /\
  fst (runWith IndexJs (1 # 10) quickTiming (ifNoneMatchAny "/abnormal"))
  <> mkResponse 200 fastBody /\
  (Num.lit_0_6 <= 9 # 10)%Q /\
  fst (runWith Part000Js (9 # 10) quickTiming (ifNoneMatchAny "/abnormal"))
  = mkResponse 304 BEmpty /\
  fst (runWith Part000Js (9 # 10) quickTiming (ifNoneMatchAny "/abnormal"))
  <> mkResponse 200 slowBody /\
  List.filter isInc
    (eventsSince startWorld
       (snd (runWith IndexJs (1 # 10) quickTiming
                     (ifNoneMatchAny "/abnormal"))))
  = [EvInc (Prom.mkLabels "GET" "/abnormal" 304)].
Proof.
  assert (H1 : fst (runWith IndexJs (1 # 10) quickTiming
                            (ifNoneMatchAny "/abnormal"))
               = mkResponse 304 BEmpty) by (by vm_compute).
  assert (H2 : fst (runWith Part000Js (9 # 10) quickTiming
                            (ifNoneMatchAny "/abnormal"))
               = mkResponse 304 BEmpty) by (by vm_compute).
  split; [reflexivity|]. split; [reflexivity|]. split; [reflexivity|].
  split; [exact H1|]. split; [by rewrite H1|].
  split; [discriminate|].
  split; [exact H2|]. split; [by rewrite H2|].
  by vm_compute.
Qed.

(** C2, amended.  In both variants one invocation of [GET /abnormal]
    calls [Math.random()] exactly once, and with [r] the value drawn:
    below the literal 0.3 the answer is that of [res.json] for the fast
    message and no timer is awaited; from 0.3 and below the literal 0.6
    the response is 500 with the error body, again without a timer; from
    0.6 on the answer is that of [res.json] for the slow message, sent
    right after the one timer of 3000 ms.  The answer of [res.json] is
    status 200 with the JSON body, unless the request is fresh against
    the entity tag of that body: then it is status 304 without a body.  A
    request without [If-None-Match] is never fresh, one with
    [If-None-Match: *] and neither [If-Modified-Since] nor [Cache-Control]
    always is, and the error response does not depend on the headers.  The
    literals stand for the doubles they denote. *)
Theorem abnormal_bands (v : Variant) (env : ProcessEnv) (t : Timing)
    (h : Headers) (w : World) :
  let req := mkRequest "GET" "/abnormal" h in
  let r := random env (draws w) in
  let res := fst (handleRequest v env t req w) in
  let w' := snd (handleRequest v env t req w) in
  let es := eventsSince w w' in
  draws w' = S (draws w) /\
  count isRandom es = 1%nat /\
  In (EvRandom r) es /\
  ((r < Num.lit_0_3)%Q ->
   res = jsonAnswer env req [("message", Json.JStr "Fast response")] /\
   count isTimer es = 0%nat) /\
  ((Num.lit_0_3 <= r)%Q -> (r < Num.lit_0_6)%Q ->
   res = mkResponse 500 errorBody /\ count isTimer es = 0%nat) /\
  ((Num.lit_0_6 <= r)%Q ->
   res = jsonAnswer env req [("message", Json.JStr "Slow response")] /\
   count isTimer es = 1%nat /\
   exists pre post,
     es = pre ++ EvTimer 3000 :: EvSend (statusCode res) (body res) :: post /\
     count isTimer pre = 0%nat) /\
  (forall o,
     jsonAnswer env req o
     = if freshFor env req o then mkResponse 304 BEmpty
       else mkResponse 200 (BJson o)) /\
  (given (ifNoneMatch h) = None ->
   forall o, jsonAnswer env req o = mkResponse 200 (BJson o)) /\
  (ifNoneMatch h = Some "*" -> ifModifiedSince h = None ->
   cacheControl h = None ->
   forall o, jsonAnswer env req o = mkResponse 304 BEmpty).
Proof.
  intros req r res w' es.
  pose proof (route_abnormal v env t h w) as (hs & Ht & Hd & Hr & Hin & Hband).
  fold req r in Ht, Hd, Hband.
  assert (Hes : es = hs ++ [ EvInc (labelsOf req res);
                             EvObserve (labelsOf req res) (wallElapsed t);
                             EvLog Winston.info "Request completed"
                               (completedMeta req res
                                  (wall (tFinish t) - wall (tEntry t))
                                  (wall (tTime t))) ]).
  { subst es w' res. rewrite handleRequest_split.
    apply eventsSince_app. unfold finished; project.
    rewrite Ht. by rewrite <- app_assoc. }
  assert (Hres : res = fst (routeOf v env t req w))
    by (subst res; by rewrite handleRequest_split).
  rewrite <- Hres in Hband.
  assert (Hdraws : draws w' = S (draws w)).
  { subst w'. rewrite handleRequest_split. exact Hd. }
  clearbody res w' es.
  split; [exact Hdraws|].
  split. { rewrite Hes, count_app, Hr. reflexivity. }
  split. { rewrite Hes. apply in_or_app. by left. }
  split; [|split; [|split; [|split; [|split]]]].
  - intros Hlt%Qltb_lt. rewrite Hlt in Hband. destruct Hband as [Hb Hc].
    split; [exact Hb|]. rewrite Hes, count_app, Hc. reflexivity.
  - intros Hge%Qltb_false Hlt%Qltb_lt. rewrite Hge, Hlt in Hband.
    destruct Hband as [Hb Hc].
    split; [exact Hb|]. rewrite Hes, count_app, Hc. reflexivity.
  - intros Hge6%Qltb_false.
    assert (Hge3 : Num.Qltb r Num.lit_0_3 = false).
    { apply Qltb_false. apply Qltb_false in Hge6.
      eapply Qle_trans; [|exact Hge6]. done. }
    rewrite Hge3, Hge6 in Hband.
    destruct Hband as (Hb & Hc & pre & post & Hhs & Hpre).
    split; [exact Hb|]. split; [rewrite Hes, count_app, Hc; reflexivity|].
    eexists pre, (post ++ _).
    split; [|exact Hpre]. rewrite Hes, Hhs.
    rewrite <- app_assoc. cbn [app]. reflexivity.
  - reflexivity.
  - intros Hnone o. by apply jsonAnswer_unconditional.
  - subst req. destruct h as [nm since cc].
    cbn [ifNoneMatch ifModifiedSince cacheControl]. intros -> -> -> o.
    unfold jsonAnswer, freshFor.
    by destruct (etagPrecedence env).
Qed.

Lemma abnormal_bands_witness :
  fst (runFrom IndexJs (1 # 10) quickTiming "GET" "/abnormal")
  = mkResponse 200 fastBody /\
  fst (runFrom IndexJs (4 # 10) quickTiming "GET" "/abnormal")
  = mkResponse 500 errorBody /\
  fst (runFrom IndexJs (9 # 10) quickTiming "GET" "/abnormal")
  = mkResponse 200 slowBody /\
  count isTimer
    (eventsSince startWorld
       (snd (runFrom IndexJs (9 # 10) quickTiming "GET" "/abnormal")))
  = 1%nat.
Proof.
  pose proof (abnormal_bands IndexJs (envWithRandom (1 # 10)) quickTiming
                             noHeaders startWorld)
    as (_ & _ & _ & Hfast & _ & _ & _ & Hplain & _).
  pose proof (abnormal_bands IndexJs (envWithRandom (4 # 10)) quickTiming
                             noHeaders startWorld)
    as (_ & _ & _ & _ & Herr & _).
  pose proof (abnormal_bands IndexJs (envWithRandom (9 # 10)) quickTiming
                             noHeaders startWorld)
    as (_ & _ & _ & _ & _ & Hslow & _ & Hplain' & _).
  destruct Hfast as [Hf _]; [reflexivity|].
  rewrite (Hplain eq_refl) in Hf.
  destruct Hslow as (Hs & Hc & _); [discriminate|].
  rewrite (Hplain' eq_refl) in Hs.
  split; [exact Hf|].
  split; [apply Herr; [discriminate|reflexivity]|].
  split; [exact Hs|exact Hc].
Defined.

(** ** Simulated errors *)

Lemma writtenSince_app w w' ws :
  written w' = written w ++ ws -> writtenSince w w' = ws.
Proof. unfold writtenSince. intros ->. by rewrite drop_app_length. Qed.

Lemma error_accepted_everywhere env now message meta :
  exists text,
    Winston.log (Index.logger env) now Winston.error message meta
    = map (fun tr => (tr, text)) (Winston.transports (Index.logger env)).
Proof.
  eexists. unfold Winston.log. f_equal.
  unfold Index.logger, Winston.accepts; simpl.
  by destruct (decide _).
Qed.

(** The only response with status 500 is that of the error band of the
    randomized endpoint. *)
Lemma route_status_500 v env t req w :
  statusCode (fst (routeOf v env t req w)) = 500 ->
  let w1 := snd (routeOf v env t req w) in
  let r := random env (draws w) in
  match v with
  | IndexJs =>
      trace w1
      = trace w ++ [ EvRandom r;
                     EvLog Winston.info "Abnormal endpoint called" [];
                     EvSend 500 (sent req errorBody);
                     EvLog Winston.error "Internal Server Error occurred"
                           [ ("endpoint", Json.JStr (path req));
                             ("method", Json.JStr (method req)) ] ] /\
      written w1
      = written w
        ++ Winston.log (Index.logger env) (wall (tCalled t)) Winston.info
                       "Abnormal endpoint called" []
        ++ Winston.log (Index.logger env) (wall (tSent t)) Winston.error
                       "Internal Server Error occurred"
                       [ ("endpoint", Json.JStr (path req));
                         ("method", Json.JStr (method req)) ]
  | Part000Js =>
      trace w1 = trace w ++ [EvRandom r; EvSend 500 (sent req errorBody)] /\
      written w1 = written w
  end.
Proof.
  destruct v; unfold routeOf, Index.route, Part000.route, Index.normal,
    Part000.normal, Index.abnormal, Part000.abnormal, Index.metrics,
    Part000.metrics, unhandled;
    run; intros Hst; try discriminate Hst;
    try (exfalso;
         match type of Hst with
         | sendStatus ?p ?r ?s ?x = 500 =>
             destruct (sendStatus_cases p r s x) as [E|E];
             rewrite E in Hst; discriminate Hst
         end);
    cbv zeta; rewrite ?sendStatus_500, ?sendBody_500;
    rewrite <- ?app_assoc; split; reflexivity.
Qed.

(** C7, as stated, fails for [src/unnamed/part_000].  From its initial
    state, [GET /abnormal] with a draw of 0.4 is answered with 500, yet no
    call of the logger is at error severity: the one record of the
    request is the 'Request completed' record at info severity. *)
Lemma error_severity_counterexample :
  Part000.init = inr startWorld /\
  statusCode (fst (runFrom Part000Js (4 # 10) quickTiming "GET" "/abnormal"))
  = 500 /\
  count isErrorLog
    (eventsSince startWorld
       (snd (runFrom Part000Js (4 # 10) quickTiming "GET" "/abnormal")))
  = 0%nat /\
  List.filter isLog
    (eventsSince startWorld
       (snd (runFrom Part000Js (4 # 10) quickTiming "GET" "/abnormal")))
  = [ EvLog Winston.info "Request completed"
            (completedMeta (plain "GET" "/abnormal")
                           (mkResponse 500 errorBody) 5 1700000000005) ].
Proof. vm_compute. by repeat split. Qed.

(** C7, amended.  In both variants, when the response of a request has
    status 500, the counter and the count of the histogram series for its
    method, path and status 500 grow by one and a 'Request completed'
    record with status 500 is logged at info severity.  In
    [src/index.js] the handler also logs 'Internal Server Error
    occurred' at error severity, once, and the record is given to every
    transport of the logger; in [src/unnamed/part_000] no call of the
    logger is at error severity. *)
Theorem error_response_recorded (v : Variant) (env : ProcessEnv)
    (t : Timing) (req : Request) (w : World) :
  let res := fst (handleRequest v env t req w) in
  let w' := snd (handleRequest v env t req w) in
  let es := eventsSince w w' in
  let l := Prom.mkLabels (method req) (path req) 500 in
  statusCode res = 500 ->
  Prom.counterValue (requestCounter w') l
  = Prom.counterValue (requestCounter w) l + 1 /\
  Prom.s_count (Prom.seriesOf (responseTimeHistogram w') l)
  = Prom.s_count (Prom.seriesOf (responseTimeHistogram w) l) + 1 /\
  (exists meta,
      In (EvLog Winston.info "Request completed" meta) es /\
      Json.get "status" meta = Some (Json.JInt 500)) /\
  match v with
  | IndexJs =>
      count isErrorLog es = 1%nat /\
      In (EvLog Winston.error "Internal Server Error occurred"
                [ ("endpoint", Json.JStr (path req));
                  ("method", Json.JStr (method req)) ]) es /\
      exists text before after,
        writtenSince w w'
        = before
          ++ map (fun tr => (tr, text)) (Winston.transports (Index.logger env))
          ++ after
  | Part000Js => count isErrorLog es = 0%nat
  end.
Proof.
  intros res w' es l Hst.
  assert (Hres : res = fst (routeOf v env t req w))
    by (subst res; by rewrite handleRequest_split).
  assert (Hw' : w' = finished v env t req res (snd (routeOf v env t req w)))
    by (subst w' res; by rewrite handleRequest_split).
  assert (Hes : es = eventsSince w w') by reflexivity.
  assert (Hl : labelsOf req res = l) by (unfold labelsOf; by rewrite Hst).
  clearbody res w' es l.
  pose proof (route_handlerOnly v env t req w) as (Hc & Hh & _ & hs & Hhs & _).
  pose proof (route_status_500 v env t req w) as H500.
  rewrite <- Hres in H500. specialize (H500 Hst). cbv zeta in H500.
  assert (Htr : trace w'
                = trace (snd (routeOf v env t req w))
                  ++ [ EvInc l; EvObserve l (wallElapsed t);
                       EvLog Winston.info "Request completed"
                         (completedMeta req res
                            (wall (tFinish t) - wall (tEntry t))
                            (wall (tTime t))) ]).
  { rewrite Hw'. unfold finished; project. by rewrite Hl. }
  split; [|split; [|split]].
  - rewrite Hw'. unfold finished; project. rewrite Hl, Hc.
    apply counterValue_inc.
  - rewrite Hw'. unfold finished; project. rewrite Hl, Hh.
    apply seriesOf_count_observe.
  - eexists. split.
    + rewrite Hes. unfold eventsSince. rewrite Htr, Hhs.
      rewrite <- app_assoc, drop_app_length.
      apply in_or_app. right. right. right. by left.
    + unfold completedMeta. cbn [Json.get String.eqb Ascii.eqb Bool.eqb].
      by rewrite Hst.
  - destruct v; destruct H500 as [Ht Hwr].
    + assert (Hes' : es = [ EvRandom (random env (draws w));
                            EvLog Winston.info "Abnormal endpoint called" [];
                            EvSend 500 (sent req errorBody);
                            EvLog Winston.error "Internal Server Error occurred"
                                  [ ("endpoint", Json.JStr (path req));
                                    ("method", Json.JStr (method req)) ];
                            EvInc l; EvObserve l (wallElapsed t);
                            EvLog Winston.info "Request completed"
                              (completedMeta req res
                                 (wall (tFinish t) - wall (tEntry t))
                                 (wall (tTime t))) ]).
      { rewrite Hes. apply eventsSince_app. rewrite Htr, Ht.
        by rewrite <- app_assoc. }
      split; [by rewrite Hes'|]. split.
      * rewrite Hes'. right. right. right. by left.
      * destruct (error_accepted_everywhere
                    env (wall (tSent t)) "Internal Server Error occurred"
                    [ ("endpoint", Json.JStr (path req));
                      ("method", Json.JStr (method req)) ]) as [text Htext].
        exists text,
          (Winston.log (Index.logger env) (wall (tCalled t)) Winston.info
                       "Abnormal endpoint called" []),
          (Winston.log (Index.logger env) (wall (tCompleted t)) Winston.info
                       "Request completed"
                       (completedMeta req res
                          (wall (tFinish t) - wall (tEntry t))
                          (wall (tTime t)))).
        apply writtenSince_app. rewrite Hw'. unfold finished; project.
        rewrite Hwr, Htext. by rewrite <- !app_assoc.
    + assert (Hes' : es = [ EvRandom (random env (draws w));
                            EvSend 500 (sent req errorBody);
                            EvInc l; EvObserve l (wallElapsed t);
                            EvLog Winston.info "Request completed"
                              (completedMeta req res
                                 (wall (tFinish t) - wall (tEntry t))
                                 (wall (tTime t))) ]).
      { rewrite Hes. apply eventsSince_app. rewrite Htr, Ht.
        by rewrite <- app_assoc. }
      by rewrite Hes'.
Qed.

Lemma error_response_recorded_witness :
  statusCode (fst (runFrom IndexJs (4 # 10) quickTiming "GET" "/abnormal"))
  = 500 /\
  Prom.counterValue
    (requestCounter
       (snd (runFrom IndexJs (4 # 10) quickTiming "GET" "/abnormal")))
    (Prom.mkLabels "GET" "/abnormal" 500) = 1 /\
  count isErrorLog
    (eventsSince startWorld
       (snd (runFrom IndexJs (4 # 10) quickTiming "GET" "/abnormal")))
  = 1%nat.
Proof.
  pose proof (error_response_recorded
                IndexJs (envWithRandom (4 # 10)) quickTiming
                (plain "GET" "/abnormal") startWorld
                eq_refl) as (Hc & _ & _ & He & _).
  split; [reflexivity|]. split; [exact Hc|exact He].
Defined.

End Pipeline.

(** ** Log records *)

Section Records.
Import Json DateFmt Express.

Lemma append_nil (s : string) : EmptyString +:+ s = s.
Proof. reflexivity. Qed.

Lemma append_cons (c : ascii) (s s' : string) :
  String c s +:+ s' = String c (s +:+ s').
Proof. reflexivity. Qed.

Lemma append_assoc (a b c : string) : (a +:+ b) +:+ c = a +:+ (b +:+ c).
Proof.
  induction a as [|x a IH]; [done|]. rewrite !append_cons. by f_equal.
Qed.

Lemma get_set_eq k v o : get k (set k v o) = Some v.
Proof.
  induction o as [|[k' v'] o IH]; simpl.
  - by rewrite String.eqb_refl.
  - destruct (String.eqb k k') eqn:E; simpl; rewrite E; [done|exact IH].
Qed.

Lemma get_set_ne k k' v o : k <> k' -> get k (set k' v o) = get k o.
Proof.
  intros Hne. induction o as [|[k'' v''] o IH]; simpl.
  - by apply String.eqb_neq in Hne as ->.
  - destruct (String.eqb k' k'') eqn:E; simpl.
    + apply String.eqb_eq in E as <-.
      by apply String.eqb_neq in Hne as ->.
    + by rewrite IH.
Qed.

Lemma get_assign_None k source : forall target,
  get k target = None -> get k source = None ->
  get k (assign target source) = None.
Proof.
  unfold assign.
  induction source as [|[k' v'] source IH]; intros target Ht Hs; [done|].
  simpl in *. destruct (String.eqb k k') eqn:E; [done|].
  apply IH; [|done]. rewrite get_set_ne; [done|].
  by apply String.eqb_neq.
Qed.

Lemma isDigit_digitChar n : isDigit (digitChar n) = true.
Proof.
  unfold isDigit, digitChar.
  assert (H : (Z.to_nat (n mod 10) < 10)%nat).
  { pose proof (Z.mod_pos_bound n 10). lia. }
  rewrite nat_ascii_embedding by lia.
  apply andb_true_iff. split; [apply Nat.leb_le | apply Nat.leb_le]; lia.
Qed.

Lemma takeDigits_snoc k : forall s d rest x,
  takeDigits k (s +:+ x) = Some x ->
  (forall y, takeDigits k (s +:+ y) = Some y) ->
  isDigit d = true ->
  takeDigits (S k) ((s +:+ String d EmptyString) +:+ rest) = Some rest.
Proof.
  induction k as [|k IH]; intros s d rest x Hx Hall Hd.
  - destruct s as [|c s].
    + rewrite !append_nil, append_cons, append_nil. simpl. by rewrite Hd.
    + specialize (Hall EmptyString). rewrite append_cons in Hall.
      simpl in Hall. injection Hall as Hc. discriminate Hc.
  - destruct s as [|c s].
    + specialize (Hall EmptyString). rewrite append_nil in Hall.
      simpl in Hall. discriminate Hall.
    + rewrite !append_cons. cbn [takeDigits].
      pose proof (Hall EmptyString) as Hc. rewrite append_cons in Hc.
      cbn [takeDigits] in Hc.
      destruct (isDigit c) eqn:Ec; [|discriminate Hc].
      apply (IH s d rest EmptyString); [exact Hc| |exact Hd].
      intros y. specialize (Hall y). rewrite append_cons in Hall.
      cbn [takeDigits] in Hall. by rewrite Ec in Hall.
Qed.

Lemma takeDigits_padDigits k : forall n rest,
  takeDigits k (padDigits k n +:+ rest) = Some rest.
Proof.
  induction k as [|k IH]; intros n rest; [done|].
  cbn [padDigits].
  apply (takeDigits_snoc k _ _ _ EmptyString);
    [apply IH | intros y; apply IH | apply isDigit_digitChar].
Qed.

Lemma digitChar_not c n :
  isDigit c = false -> Ascii.eqb c (digitChar n) = false.
Proof.
  intros Hc. apply Ascii.eqb_neq. intros ->.
  by rewrite isDigit_digitChar in Hc.
Qed.

Lemma padDigits_S k n :
  padDigits (S k) n = padDigits k (n / 10) +:+ String (digitChar n) EmptyString.
Proof. reflexivity. Qed.

(** A padded number of at least one digit starts with a digit. *)
Lemma padDigits_head k n :
  exists m s, padDigits (S k) n = String (digitChar m) s.
Proof.
  revert n. induction k as [|k IH]; intros n.
  - by exists n, EmptyString.
  - rewrite padDigits_S. destruct (IH (n / 10)) as (m & s & ->).
    rewrite append_cons. by eexists _, _.
Qed.

Lemma takeYear_isoYear y rest : takeYear (isoYear y +:+ rest) = Some rest.
Proof.
  unfold isoYear. destruct ((0 <=? y) && (y <=? 9999)).
  - pose proof (takeDigits_padDigits 4 y rest) as H.
    destruct (padDigits_head 3 y) as (m & s & E). rewrite E in *.
    rewrite append_cons in *. unfold takeYear.
    rewrite !(Ascii.eqb_sym (digitChar m)).
    by rewrite !digitChar_not.
  - destruct (y <? 0); rewrite append_assoc, append_cons, append_nil;
      unfold takeYear; simpl Ascii.eqb; cbv iota;
      apply takeDigits_padDigits.
Qed.

Lemma isISO8601_toISOString t : isISO8601 (toISOString t) = true.
Proof.
  unfold isISO8601, toISOString.
  rewrite takeYear_isoYear. cbn [mbind option_bind].
  repeat first
    [ rewrite takeDigits_padDigits; cbn [mbind option_bind]
    | rewrite append_cons, append_nil; cbn [expect Ascii.eqb Bool.eqb];
      cbn [mbind option_bind] ].
  reflexivity.
Qed.

Lemma formatLocal_head tz now :
  exists m s, formatLocal tz now = String (digitChar m) s.
Proof.
  unfold formatLocal.
  destruct (padDigits_head 3 (year (fromEpoch (now + tz * 60000))))
    as (m & s & ->).
  rewrite append_cons. by eexists _, _.
Qed.

(** *** Objects *)

Lemma hasKey_get k o : hasKey k o = false -> get k o = None.
Proof.
  induction o as [|[k' v'] o IH]; [done|].
  cbn [hasKey existsb fst get]. intros [Hk Ho]%orb_false_iff.
  rewrite Hk. by apply IH.
Qed.

Lemma hasKey_app k o o' : hasKey k (o ++ o') = hasKey k o || hasKey k o'.
Proof. unfold hasKey. apply existsb_app. Qed.

Lemma set_absent k v o : hasKey k o = false -> set k v o = o ++ [(k, v)].
Proof.
  induction o as [|[k' v'] o IH]; [done|].
  cbn [hasKey existsb fst set]. intros [Hk Ho]%orb_false_iff.
  rewrite Hk. cbn [app]. f_equal. by apply IH.
Qed.

Lemma get_app_absent k o o' : hasKey k o = false -> get k (o ++ o') = get k o'.
Proof.
  induction o as [|[k' v'] o IH]; [done|].
  cbn [hasKey existsb fst get app]. intros [Hk Ho]%orb_false_iff.
  rewrite Hk. by apply IH.
Qed.

Lemma set_app_absent k v o o' :
  hasKey k o = false -> set k v (o ++ o') = o ++ set k v o'.
Proof.
  induction o as [|[k' v'] o IH]; [done|].
  cbn [hasKey existsb fst set app]. intros [Hk Ho]%orb_false_iff.
  rewrite Hk. f_equal. by apply IH.
Qed.

Lemma assign_distinct source : forall target,
  distinctKeys source = true ->
  (forall k, hasKey k source = true -> hasKey k target = false) ->
  assign target source = target ++ source.
Proof.
  induction source as [|[k v] source IH]; intros target Hd Hdisj.
  - by rewrite app_nil_r.
  - cbn [distinctKeys fst] in Hd.
    apply andb_true_iff in Hd as [Hk%negb_true_iff Hd].
    change (assign target ((k, v) :: source))
      with (assign (set k v target) source).
    rewrite set_absent.
    + rewrite IH; [by rewrite <- app_assoc|exact Hd|].
      intros k' Hk'. rewrite hasKey_app.
      rewrite (Hdisj k')
        by (cbn [hasKey existsb]; fold (hasKey k' source);
            rewrite Hk'; apply orb_true_r).
      cbn [hasKey existsb fst orb].
      destruct (String.eqb k' k) eqn:E; [|done].
      apply String.eqb_eq in E. subst k'. congruence.
    + apply Hdisj. cbn [hasKey existsb fst]. by rewrite String.eqb_refl.
Qed.

Lemma omit_absent o :
  hasKey "timestamp" o = false -> hasKey "level" o = false ->
  hasKey "message" o = false ->
  omit ["timestamp"; "level"; "message"] o = o.
Proof.
  induction o as [|[k v] o IH]; [done|].
  cbn [hasKey existsb fst omit List.filter].
  intros [H1 Ho1]%orb_false_iff [H2 Ho2]%orb_false_iff [H3 Ho3]%orb_false_iff.
  rewrite (String.eqb_sym k "timestamp"), (String.eqb_sym k "level"),
    (String.eqb_sym k "message"), H1, H2, H3.
  cbn [orb negb]. f_equal. by apply IH.
Qed.

Lemma get_insertKey_other k kv o :
  String.eqb k (fst kv) = false -> get k (insertKey kv o) = get k o.
Proof.
  intros Hk. destruct kv as [k0 v0]. cbn [fst] in Hk.
  induction o as [|[k' v'] o IH]; cbn [insertKey fst].
  - cbn [get]. by rewrite Hk.
  - destruct (String.leb k0 k'); cbn [get]; [by rewrite Hk|by rewrite IH].
Qed.

Lemma get_sorted_absent k o base :
  hasKey k o = false -> get k (fold_right insertKey base o) = get k base.
Proof.
  induction o as [|[k' v'] o IH]; [done|].
  cbn [hasKey existsb fst fold_right]. intros [Hk Ho]%orb_false_iff.
  rewrite get_insertKey_other by exact Hk. by apply IH.
Qed.

(** *** The text of a record *)

Lemma plainCall_inv now lvl message meta :
  plainCall (now, lvl, message, meta) = true ->
  (meta <> [] -> Winston.hasFormatToken message = false) /\
  distinctKeys meta = true /\
  hasKey "timestamp" meta = false /\
  hasKey "level" meta = false /\
  hasKey "message" meta = false.
Proof.
  unfold plainCall. rewrite !andb_true_iff, !negb_true_iff.
  intros ((((Htok & Hd) & Hts) & Hlv) & Hmsg).
  split; [|done]. intros Hne.
  destruct meta; [done|]. by apply negb_true_iff.
Qed.

Lemma infoFields_plain now lvl message meta :
  plainCall (now, lvl, message, meta) = true ->
  Winston.infoFields lvl message meta
  = match meta with
    | [] => [ ("message", JStr message);
              ("level", JStr (Winston.levelName lvl)) ]
    | _ => meta ++ [ ("level", JStr (Winston.levelName lvl));
                     ("message", JStr message) ]
    end.
Proof.
  intros (Htok & Hd & _ & Hlv & Hmsg)%plainCall_inv.
  destruct meta as [|kv meta]; [reflexivity|].
  unfold Winston.infoFields. rewrite Htok by done.
  rewrite (hasKey_get _ _ Hmsg). cbn [Winston.truthy].
  rewrite (assign_distinct (kv :: meta) []) by done.
  cbn [app].
  change (assign ?o [ ("level", ?l); ("message", ?m) ])
    with (set "message" m (set "level" l o)).
  rewrite (set_absent "level") by exact Hlv.
  rewrite (set_absent "message")
    by (rewrite hasKey_app, Hmsg; reflexivity).
  by rewrite <- app_assoc.
Qed.

Lemma index_format env now lvl message meta tail :
  tail = [ ("message", JStr message);
           ("level", JStr (Winston.levelName lvl)) ] \/
  tail = [ ("level", JStr (Winston.levelName lvl));
           ("message", JStr message) ] ->
  hasKey "timestamp" meta = false -> hasKey "level" meta = false ->
  hasKey "message" meta = false ->
  Winston.format (Index.logger env) now (Winston.mkInfo lvl (meta ++ tail))
  = printfLine env (now, lvl, message, meta).
Proof.
  intros Htail Hts Hlv Hmsg.
  destruct (formatLocal_head (utcOffsetMin env) now) as (m & s & Ehead).
  assert (Htruthy : Winston.truthy
                      (Some (JStr (formatLocal (utcOffsetMin env) now)))
                    = true) by (by rewrite Ehead).
  cbn [Index.logger Winston.format]. unfold Winston.timestamp.
  cbn [Winston.fields Winston.LEVEL].
  rewrite -> (set_app_absent "timestamp") by exact Hts.
  rewrite -> (get_app_absent "timestamp") by exact Hts.
  destruct Htail as [-> | ->];
    cbn [set get String.eqb Ascii.eqb Bool.eqb];
    rewrite Htruthy;
    unfold Winston.colorize; cbn [Winston.fields Winston.LEVEL];
    rewrite -> (get_app_absent "level") by exact Hlv;
    rewrite -> (set_app_absent "level") by exact Hlv;
    cbn [set get String.eqb Ascii.eqb Bool.eqb Winston.interpolate];
    unfold Index.printf; cbn [Winston.fields];
    rewrite -> (get_app_absent "timestamp") by exact Hts;
    rewrite -> (get_app_absent "level") by exact Hlv;
    rewrite -> (get_app_absent "message") by exact Hmsg;
    unfold omit; rewrite List.filter_app; fold (omit ["timestamp"; "level"; "message"] meta);
    rewrite -> omit_absent by done;
    cbn [get List.filter existsb negb orb fst String.eqb Ascii.eqb Bool.eqb
         Winston.interpolate];
    rewrite app_nil_r; unfold printfLine, Winston.paint;
    rewrite !append_assoc;
    by destruct meta.
Qed.

Lemma index_line env now lvl message meta :
  plainCall (now, lvl, message, meta) = true ->
  Winston.format (Index.logger env) now
                 (Winston.mkInfo lvl (Winston.infoFields lvl message meta))
  = printfLine env (now, lvl, message, meta).
Proof.
  intros Hp. rewrite (infoFields_plain now) by exact Hp.
  apply plainCall_inv in Hp as (_ & _ & Hts & Hlv & Hmsg).
  destruct meta as [|kv meta].
  - apply (index_format env now lvl message []); auto.
  - apply index_format; auto.
Qed.

Lemma part000_line now lvl message meta :
  plainCall (now, lvl, message, meta) = true ->
  Winston.format Part000.logger now
                 (Winston.mkInfo lvl (Winston.infoFields lvl message meta))
  = jsonLine (now, lvl, message, meta).
Proof.
  intros Hp. rewrite (infoFields_plain now) by exact Hp.
  apply plainCall_inv in Hp as (_ & _ & Hts & _ & _).
  destruct meta as [|kv meta]; [reflexivity|].
  cbn [Part000.logger Winston.format]. unfold Winston.timestamp.
  cbn [Winston.fields Winston.LEVEL].
  rewrite -> (get_app_absent "timestamp") by exact Hts.
  cbn [get String.eqb Ascii.eqb Bool.eqb Winston.truthy Winston.fields
       Winston.LEVEL].
  rewrite -> (set_app_absent "timestamp") by exact Hts.
  reflexivity.
Qed.

Lemma writeCall_lineOf v env c :
  plainCall c = true ->
  writeCall (loggerOf v env) c
  = map (fun tr => (tr, lineOf v env c))
        (takers (loggerOf v env) (callLevel c)).
Proof.
  destruct c as [[[now lvl] message] meta]. intros Hp.
  cbn [writeCall callLevel]. unfold Winston.log. fold (takers (loggerOf v env) lvl).
  destruct v; cbn [loggerOf lineOf].
  - by rewrite index_line.
  - by rewrite part000_line.
Qed.

Lemma writeCalls_recordsOf v env calls :
  Forall (fun c => plainCall c = true) calls ->
  flat_map (writeCall (loggerOf v env)) calls = recordsOf v env calls.
Proof.
  induction 1 as [|c calls Hc _ IH]; [done|].
  unfold recordsOf. cbn [flat_map]. rewrite writeCall_lineOf by exact Hc.
  f_equal. exact IH.
Qed.

(** A line of [src/unnamed/part_000] is a JSON object with an ISO-8601
    timestamp. *)
Lemma jsonLine_json c :
  plainCall c = true -> jsonWithIsoTimestamp (jsonLine c).
Proof.
  destruct c as [[[now lvl] message] meta].
  intros (_ & _ & Hts & _ & _)%plainCall_inv.
  eexists _, _. split; [reflexivity|]. split.
  - unfold sortKeys. rewrite fold_right_app.
    rewrite get_sorted_absent by exact Hts. reflexivity.
  - apply isISO8601_toISOString.
Qed.

(** A line of [src/index.js] starts with a digit, so it is no JSON
    object. *)
Lemma printfLine_not_json env c : ~ jsonWithIsoTimestamp (printfLine env c).
Proof.
  destruct c as [[[now lvl] message] meta].
  intros (o1 & ts & Ho & _). unfold printfLine in Ho.
  destruct (formatLocal_head (utcOffsetMin env) now) as (m & s & Ehead).
  rewrite Ehead in Ho. unfold stringify in Ho. rewrite !append_cons in Ho.
  injection Ho as Hc _.
  pose proof (isDigit_digitChar m) as Hd. by rewrite Hc in Hd.
Qed.

Lemma recordsOf_Forall (P : string -> Prop) v env calls :
  Forall (fun c => P (lineOf v env c)) calls ->
  Forall (fun e => P (snd e)) (recordsOf v env calls).
Proof.
  induction 1 as [|c calls Hc _ IH]; [constructor|].
  unfold recordsOf. cbn [flat_map]. apply Forall_app_2; [|exact IH].
  apply Forall_forall. intros e He. apply list_elem_of_In in He.
  apply in_map_iff in He as (tr & <- & _). exact Hc.
Qed.

(** *** The calls of a request *)

Ltac levels :=
  repeat (constructor; [first [by left | by right]|]); constructor.

Ltac plains := repeat (constructor; [reflexivity|]); constructor.

Ltac readings :=
  repeat (constructor;
          [first [by left | by (right; left) | by (right; right; left)]|]);
  constructor.

Ltac check_calls :=
  eexists;
  (split; [cbn [flat_map writeCall]; rewrite ?app_nil_r; reflexivity|]);
  (split; [reflexivity|]); (split; [reflexivity|]);
  (split; [levels|]); (split; [plains|]); readings.

Ltac give_calls :=
  first
    [ exists (@nil LogCall); check_calls
    | eexists [(_, _, _, _)]; check_calls
    | eexists [(_, _, _, _); (_, _, _, _)]; check_calls
    | eexists [(_, _, _, _); (_, _, _, _); (_, _, _, _)]; check_calls ].

Lemma route_calls v env t req w :
  exists calls hs,
    written (snd (routeOf v env t req w))
    = written w ++ flat_map (writeCall (loggerOf v env)) calls /\
    trace (snd (routeOf v env t req w)) = trace w ++ hs /\
    List.filter isLog hs = map callEvent calls /\
    Forall programLevel calls /\
    Forall (fun c => plainCall c = true) calls /\
    Forall (fun c => In (callTime c) (recordReadings t)) calls.
Proof.
  destruct v; unfold routeOf, Index.route, Part000.route, Index.normal,
    Part000.normal, Index.abnormal, Part000.abnormal, Index.metrics,
    Part000.metrics, unhandled; run; rewrite <- ?app_assoc;
    give_calls.
Qed.

(** The calls of the logger during a request and what they write; the
    last one is the 'Request completed' record. *)
Lemma handleRequest_calls v env t req w :
  exists calls,
    writtenSince w (snd (handleRequest v env t req w))
    = flat_map (writeCall (loggerOf v env)) calls /\
    List.filter isLog (eventsSince w (snd (handleRequest v env t req w)))
    = map callEvent calls /\
    Forall programLevel calls /\
    Forall (fun c => plainCall c = true) calls /\
    Forall (fun c => In (callTime c) (recordReadings t)) calls /\
    last calls
    = Some (wall (tCompleted t), Winston.info, "Request completed",
            completedMeta req (fst (handleRequest v env t req w))
                          (wall (tFinish t) - wall (tEntry t))
                          (wall (tTime t))).
Proof.
  rewrite handleRequest_split. cbn [fst snd].
  destruct (route_calls v env t req w)
    as (calls & hs & Hw & Ht & Hf & Hl & Hp & Hr).
  exists (calls ++ [ (wall (tCompleted t), Winston.info, "Request completed",
                      completedMeta req (fst (routeOf v env t req w))
                        (wall (tFinish t) - wall (tEntry t))
                        (wall (tTime t))) ]).
  split; [|split; [|split; [|split; [|split]]]].
  - apply writtenSince_app. unfold finished; project.
    rewrite Hw, flat_map_app, <- app_assoc. cbn [flat_map writeCall].
    by rewrite app_nil_r.
  - erewrite eventsSince_app;
      [|unfold finished; project; rewrite Ht, <- app_assoc; reflexivity].
    rewrite List.filter_app, Hf, map_app. reflexivity.
  - apply Forall_app_2; [exact Hl|]. constructor; [by left|constructor].
  - apply Forall_app_2; [exact Hp|]. constructor; [reflexivity|constructor].
  - apply Forall_app_2; [exact Hr|].
    constructor; [by (right; right; left)|constructor].
  - apply last_snoc.
Qed.

(** C8, as stated, fails for [src/index.js].  From its initial state,
    the two records of [GET /normal] reach the console as lines of text
    that start with a local time without zone and hold the level between
    colour codes, not as JSON objects; only the metadata of the second
    one is JSON text. *)
Lemma json_timestamp_counterexample :
  Index.init = inr startWorld /\
  textsTo isConsole
    (writtenSince startWorld
       (snd (runFrom IndexJs 0 quickTiming "GET" "/normal")))
  = [ "2023-11-14 22:13:20 [" +:+ Winston.esc +:+ "[32minfo" +:+
      Winston.esc +:+ "[39m]: Normal endpoint called ";
      "2023-11-14 22:13:20 [" +:+ Winston.esc +:+ "[32minfo" +:+
      Winston.esc +:+ "[39m]: Request completed " +:+
      dquoted "{'method':'GET','endpoint':'/normal','status':200,'duration':0.005,'time':'2023-11-14T22:13:20.005Z'}" ] /\
  isISO8601 "2023-11-14 22:13:20" = false /\
  ~ Forall (fun e => jsonWithIsoTimestamp (snd e))
      (writtenSince startWorld
         (snd (runFrom IndexJs 0 quickTiming "GET" "/normal"))).
Proof.
  split; [reflexivity|]. split; [by vm_compute|].
  split; [reflexivity|].
  assert (Hhead : head (writtenSince startWorld
                          (snd (runFrom IndexJs 0 quickTiming "GET" "/normal")))
                  = Some (Winston.Console None,
                          printfLine (envWithRandom 0)
                            (1700000000000, Winston.info,
                             "Normal endpoint called", [])))
    by (by vm_compute).
  intros Hall.
  destruct (writtenSince startWorld
              (snd (runFrom IndexJs 0 quickTiming "GET" "/normal")))
    as [|e ws]; [done|].
  injection Hhead as ->. apply Forall_cons in Hall as [Hjson _].
  exact (printfLine_not_json
           (envWithRandom 0)
           (1700000000000, Winston.info, "Normal endpoint called", [])
           Hjson).
Qed.

(** The one record of [GET /normal] in [src/unnamed/part_000], as the
    console receives it. *)
Lemma part000_record_example :
  textsTo isConsole
    (writtenSince startWorld
       (snd (runFrom Part000Js 0 quickTiming "GET" "/normal")))
  = [ dquoted "{'duration':0.005,'endpoint':'/normal','level':'info','message':'Request completed','method':'GET','status':200,'time':'2023-11-14T22:13:20.005Z','timestamp':'2023-11-14T22:13:20.005Z'}" ].
Proof. by vm_compute. Qed.

(** C8, amended.  In both variants the records given to the transports
    during a request are, call by call of the logger, one line for every
    transport that takes the level of the call, and so is the record
    of the callback of [app.listen]; each call is stamped with its own
    reading of the clock, and the last call of a request is the 'Request
    completed' record.  In [src/unnamed/part_000] the line is the JSON
    text of the metadata with the level, the message and the ISO-8601
    [timestamp] of the call, which the format adds since no caller
    supplies one, in the order of the keys.  In [src/index.js] the line is
    the local time of the call as [YYYY-MM-DD HH:mm:ss], the coloured
    level between brackets, the message, a blank and the JSON text of the
    metadata, if any; no such line is a JSON object. *)
Theorem records_as_serialized (v : Variant) (env : ProcessEnv) (t : Timing)
    (now : Z) (req : Express.Request) (w : World) :
  let res := fst (handleRequest v env t req w) in
  let ws := writtenSince w (snd (handleRequest v env t req w)) in
  let es := eventsSince w (snd (handleRequest v env t req w)) in
  let ws0 := writtenSince w (snd (listeningOf v env now w)) in
  (exists calls : list LogCall,
      List.filter isLog es = map callEvent calls /\
      Forall (fun c => In (callTime c) (recordReadings t)) calls /\
      last calls
      = Some (wall (tCompleted t), Winston.info, "Request completed",
              completedMeta req res (wall (tFinish t) - wall (tEntry t))
                            (wall (tTime t))) /\
      ws = recordsOf v env calls) /\
  ws0 = recordsOf v env [ (now, Winston.info,
                           "Server running on port " +:+ portText env, []) ] /\
  match v with
  | Part000Js =>
      Forall (fun e => jsonWithIsoTimestamp (snd e)) (ws ++ ws0)
  | IndexJs =>
      Forall (fun e => ~ jsonWithIsoTimestamp (snd e)) (ws ++ ws0)
  end.
Proof.
  intros res ws es ws0.
  destruct (handleRequest_calls v env t req w)
    as (calls & Hw & Hf & _ & Hp & Hr & Hlast).
  fold res ws es in Hw, Hf, Hlast.
  assert (Hws : ws = recordsOf v env calls)
    by (rewrite Hw; by apply writeCalls_recordsOf).
  assert (Hplain : plainCall (now, Winston.info,
                              "Server running on port " +:+ portText env,
                              []) = true) by reflexivity.
  assert (Hws0 : ws0 = recordsOf v env
                         [ (now, Winston.info,
                            "Server running on port " +:+ portText env,
                            []) ]).
  { subst ws0. rewrite <- writeCalls_recordsOf
      by (constructor; [exact Hplain|constructor]).
    cbn [flat_map writeCall]. rewrite app_nil_r.
    destruct v; unfold listeningOf, Index.listening, Part000.listening;
      unfold_ops; project; by apply writtenSince_app. }
  clearbody res ws es ws0.
  split; [by exists calls|]. split; [exact Hws0|].
  rewrite Hws, Hws0.
  destruct v; apply Forall_app_2.
  - apply (recordsOf_Forall (fun s => ~ jsonWithIsoTimestamp s)).
    apply Forall_forall. intros c _. apply printfLine_not_json.
  - apply (recordsOf_Forall (fun s => ~ jsonWithIsoTimestamp s)).
    apply Forall_forall. intros c _. apply printfLine_not_json.
  - apply (recordsOf_Forall jsonWithIsoTimestamp).
    eapply Forall_impl; [exact Hp|]. intros c Hc. by apply jsonLine_json.
  - apply (recordsOf_Forall jsonWithIsoTimestamp).
    constructor; [by apply jsonLine_json|constructor].
Qed.

End Records.

(** ** The two variants *)

Section Variants.
Import Express.

Lemma filter_recording_quiet hs :
  forallb quiet hs = true -> List.filter recording hs = [].
Proof.
  induction hs as [|e hs IH]; [done|].
  simpl. intros [He Hhs]%andb_true_iff. unfold recording at 1.
  rewrite He. simpl. by apply IH.
Qed.

Lemma route_same env t req w1 w2 :
  requestCounter w1 = requestCounter w2 ->
  responseTimeHistogram w1 = responseTimeHistogram w2 ->
  draws w1 = draws w2 ->
  fst (routeOf IndexJs env t req w1) = fst (routeOf Part000Js env t req w2) /\
  draws (snd (routeOf IndexJs env t req w1))
  = draws (snd (routeOf Part000Js env t req w2)).
Proof.
  destruct w1 as [c1 h1 wr1 so1 d1 tr1], w2 as [c2 h2 wr2 so2 d2 tr2].
  cbn [requestCounter responseTimeHistogram draws].
  intros <- <- <-.
  unfold routeOf, Index.route, Part000.route, Index.normal,
    Part000.normal, Index.abnormal, Part000.abnormal, Index.metrics,
    Part000.metrics, unhandled.
  change Part000.routes with Index.routes.
  run; by split.
Qed.

Lemma handleRequest_same env t req w1 w2 :
  sameMetrics w1 w2 ->
  fst (handleRequest IndexJs env t req w1)
  = fst (handleRequest Part000Js env t req w2) /\
  sameMetrics (snd (handleRequest IndexJs env t req w1))
              (snd (handleRequest Part000Js env t req w2)).
Proof.
  intros (Hc & Hh & Hd & Ht).
  rewrite !handleRequest_split. cbn [fst snd].
  destruct (route_same env t req w1 w2 Hc Hh Hd) as [Hres Hd'].
  pose proof (route_handlerOnly IndexJs env t req w1)
    as (Hc1 & Hh1 & _ & hs1 & Ht1 & Hq1 & _).
  pose proof (route_handlerOnly Part000Js env t req w2)
    as (Hc2 & Hh2 & _ & hs2 & Ht2 & Hq2 & _).
  split; [exact Hres|].
  unfold sameMetrics, finished; project.
  rewrite Hres, Hc1, Hc2, Hh1, Hh2, Hc, Hh, Ht1, Ht2.
  split; [done|]. split; [done|]. split; [exact Hd'|].
  rewrite !List.filter_app.
  rewrite (filter_recording_quiet hs1 Hq1), (filter_recording_quiet hs2 Hq2).
  by rewrite Ht.
Qed.

Lemma serve_same env rs : forall w1 w2,
  sameMetrics w1 w2 ->
  fst (serve (handleRequest IndexJs env) rs w1)
  = fst (serve (handleRequest Part000Js env) rs w2) /\
  sameMetrics (snd (serve (handleRequest IndexJs env) rs w1))
              (snd (serve (handleRequest Part000Js env) rs w2)).
Proof.
  induction rs as [|[t req] rs IH]; intros w1 w2 Hs; [done|].
  cbn [serve]. unfold mbind, M_bind, mret, M_ret.
  destruct (handleRequest_same env t req w1 w2 Hs) as [Hres Hs'].
  destruct (handleRequest IndexJs env t req w1) as [res1 w1'].
  destruct (handleRequest Part000Js env t req w2) as [res2 w2'].
  cbn [fst snd] in *.
  destruct (IH w1' w2' Hs') as [Hrs Hs''].
  destruct (serve (handleRequest IndexJs env) rs w1') as [rs1 w1''].
  destruct (serve (handleRequest Part000Js env) rs w2') as [rs2 w2''].
  cbn [fst snd] in *. split; [by f_equal|done].
Qed.

(** C10.  The two variants register the same counter and the same
    histogram: the names [http_requests_total] and
    [http_response_time_seconds], the label names method, endpoint and
    status, and the bounds 0.1, 0.5, 1, 2, 5, 50, 100, 200, 500, 1000.
    Served the same requests with the same clock readings and the same
    random draws, they give the same responses, end with the same counter
    and the same histogram, and their 'finish' listeners have made the
    same calls. *)
Theorem variants_agree_on_metrics (env : ProcessEnv)
    (rs : list (Timing * Request)) :
  let o1 := serve (handleRequest IndexJs env) rs startWorld in
  let o2 := serve (handleRequest Part000Js env) rs startWorld in
  Index.init = inr startWorld /\
  Part000.init = inr startWorld /\
  Prom.c_name (requestCounter startWorld) = "http_requests_total" /\
  Prom.c_labelNames (requestCounter startWorld)
  = ["method"; "endpoint"; "status"] /\
  Prom.h_name (responseTimeHistogram startWorld)
  = "http_response_time_seconds" /\
  Prom.h_labelNames (responseTimeHistogram startWorld)
  = ["method"; "endpoint"; "status"] /\
  Prom.h_upperBounds (responseTimeHistogram startWorld)
  = [1 # 10; 1 # 2; 1; 2; 5; 50; 100; 200; 500; 1000]%Q /\
  fst o1 = fst o2 /\
  requestCounter (snd o1) = requestCounter (snd o2) /\
  responseTimeHistogram (snd o1) = responseTimeHistogram (snd o2) /\
  List.filter recording (trace (snd o1))
  = List.filter recording (trace (snd o2)).
Proof.
  intros o1 o2.
  destruct (serve_same env rs startWorld startWorld) as (Hr & Hc & Hh & _ & Ht);
    [by repeat split|].
  fold o1 o2 in Hr, Hc, Hh, Ht. clearbody o1 o2.
  by repeat split.
Qed.

End Variants.

(** * Further properties of the request pipeline *)

Ltac unfold_routes :=
  unfold routeOf, Index.route, Part000.route, Index.normal, Part000.normal,
    Index.abnormal, Part000.abnormal, Index.metrics, Part000.metrics,
    unhandled in *.

Section Sequences.
Import Express.

Lemma one_request_series_count v env t req w l :
  Prom.s_count
    (Prom.seriesOf (responseTimeHistogram (snd (handleRequest v env t req w)))
                   l)
  = Prom.s_count (Prom.seriesOf (responseTimeHistogram w) l)
    + (if bool_decide (labelsOf req (fst (handleRequest v env t req w)) = l)
       then 1 else 0).
Proof.
  rewrite handleRequest_split. cbn [fst snd].
  pose proof (route_handlerOnly v env t req w) as (_ & Hh & _).
  unfold finished; project. rewrite Hh.
  case_bool_decide as Hl.
  - rewrite Hl. apply seriesOf_count_observe.
  - rewrite seriesOf_observe_other by done. lia.
Qed.

Lemma serve_cons handle t req rs w :
  serve handle ((t, req) :: rs) w
  = (fst (handle t req w) :: fst (serve handle rs (snd (handle t req w))),
     snd (serve handle rs (snd (handle t req w)))).
Proof.
  cbn [serve]. unfold mbind, M_bind, mret, M_ret.
  destruct (handle t req w) as [res w1]. cbn [fst snd].
  by destruct (serve handle rs w1).
Qed.

(** X1.  In both variants, after any sequence of requests served one
    after the other, the counter of a label combination is its prior
    value plus the number of requests of the sequence whose method, path
    and response status are that combination. *)
Theorem counter_counts_requests (v : Variant) (env : ProcessEnv)
    (rs : list (Timing * Request)) (w : World) (l : Prom.Labels) :
  Prom.counterValue
    (requestCounter (snd (serve (handleRequest v env) rs w))) l
  = Prom.counterValue (requestCounter w) l
    + Z.of_nat (labelled l rs (fst (serve (handleRequest v env) rs w))).
Proof.
  revert w. induction rs as [|[t req] rs IH]; intros w.
  - unfold labelled. simpl. lia.
  - rewrite serve_cons. cbn [fst snd]. rewrite IH, one_request_counter.
    unfold labelled. cbn [combine List.filter fst snd].
    destruct (bool_decide _); cbn [length]; lia.
Qed.

(** X2.  In both variants, when the count of every histogram series
    equals the counter of the same labels, this is still so after any
    sequence of requests; it is so in the initial state. *)
Theorem histogram_count_tracks_counter (v : Variant) (env : ProcessEnv)
    (rs : list (Timing * Request)) (w : World) :
  (forall l, countsAgree w l) ->
  forall l, countsAgree (snd (serve (handleRequest v env) rs w)) l.
Proof.
  revert w. induction rs as [|[t req] rs IH]; intros w Hw l; [apply Hw|].
  rewrite serve_cons. cbn [snd]. apply IH. intros l'. unfold countsAgree.
  rewrite one_request_series_count, one_request_counter. by rewrite Hw.
Qed.

Lemma histogram_count_tracks_counter_witness :
  (forall l, countsAgree startWorld l) /\
  countsAgree
    (snd (serve (handleRequest IndexJs (envWithRandom (4 # 10)))
                [ (quickTiming, plain "GET" "/normal");
                  (quickTiming, plain "GET" "/abnormal") ]
                startWorld))
    (Prom.mkLabels "GET" "/abnormal" 500).
Proof.
  assert (H0 : forall l, countsAgree startWorld l) by (intros l; reflexivity).
  split; [exact H0|].
  apply (histogram_count_tracks_counter
           IndexJs (envWithRandom (4 # 10))
           [ (quickTiming, plain "GET" "/normal");
             (quickTiming, plain "GET" "/abnormal") ]
           startWorld H0).
Defined.

End Sequences.

Section Requests.
Import Express.

(** X3.  In both variants a request changes the counter and the histogram
    only at the labels made of its method, its path and the status of its
    response: every other series keeps its value, the label sets of the
    counter and of the histogram grow by exactly that combination, and
    nothing is printed with [console.log]. *)
Theorem request_touches_only_its_series (v : Variant) (env : ProcessEnv)
    (t : Timing) (req : Request) (w : World) :
  let res := fst (handleRequest v env t req w) in
  let w' := snd (handleRequest v env t req w) in
  let l := labelsOf req res in
  (forall l', l' <> l ->
     Prom.counterValue (requestCounter w') l'
     = Prom.counterValue (requestCounter w) l' /\
     Prom.seriesOf (responseTimeHistogram w') l'
     = Prom.seriesOf (responseTimeHistogram w) l') /\
  dom (Prom.c_values (requestCounter w'))
  = {[ l ]} ∪ dom (Prom.c_values (requestCounter w)) /\
  dom (Prom.h_series (responseTimeHistogram w'))
  = {[ l ]} ∪ dom (Prom.h_series (responseTimeHistogram w)) /\
  stdout w' = stdout w.
Proof.
  intros res w' l.
  assert (Hw' : w' = finished v env t req res (snd (routeOf v env t req w)))
    by (subst w' res; by rewrite handleRequest_split).
  assert (Hl : l = labelsOf req res) by reflexivity.
  clearbody res w' l.
  pose proof (route_handlerOnly v env t req w) as (Hc & Hh & Hs & _).
  rewrite Hw'. unfold finished; project. rewrite Hc, Hh, Hs, <- Hl.
  split; [|split; [|split]].
  - intros l' Hne. split.
    + by apply counterValue_inc_other.
    + by apply seriesOf_observe_other.
  - unfold Prom.inc. cbn [Prom.c_values]. apply dom_insert_L.
  - unfold Prom.observe. cbn [Prom.h_series]. apply dom_insert_L.
  - reflexivity.
Qed.

Lemma request_touches_only_its_series_witness :
  Prom.mkLabels "GET" "/normal" 200
  <> labelsOf (plain "GET" "/users/42")
              (fst (runFrom IndexJs 0 quickTiming "GET" "/users/42")) /\
  Prom.counterValue
    (requestCounter (snd (runFrom IndexJs 0 quickTiming "GET" "/users/42")))
    (Prom.mkLabels "GET" "/normal" 200)
  = Prom.counterValue (requestCounter startWorld)
                      (Prom.mkLabels "GET" "/normal" 200).
Proof.
  assert (Hne : Prom.mkLabels "GET" "/normal" 200
                <> labelsOf (plain "GET" "/users/42")
                     (fst (runFrom IndexJs 0 quickTiming "GET" "/users/42")))
    by discriminate.
  split; [exact Hne|].
  pose proof (request_touches_only_its_series
                IndexJs (envWithRandom 0) quickTiming
                (plain "GET" "/users/42") startWorld) as (Hframe & _).
  exact (proj1 (Hframe _ Hne)).
Defined.

Lemma handleRequest_draws v env t req w :
  draws (snd (handleRequest v env t req w))
  = draws (snd (routeOf v env t req w)).
Proof. by rewrite handleRequest_split. Qed.

(** The status that [res.send] leaves from 200: 304 needs a GET or HEAD
    request with [If-None-Match]. *)
Lemma sendStatus_200 p req text :
  sendStatus p req 200 text = 200 \/
  sendStatus p req 200 text = 304 /\
  given (ifNoneMatch (headers req)) <> None /\
  String.eqb (method req) "GET" || String.eqb (method req) "HEAD" = true.
Proof.
  unfold sendStatus.
  destruct (reqFresh p req 200 (Etag.weak text)) eqn:E; [right|by left].
  unfold reqFresh in E.
  apply andb_true_iff in E as [[Hm _]%andb_true_iff Hf].
  split; [done|]. split; [|exact Hm].
  intros Hnone. by rewrite fresh_unconditional in Hf.
Qed.

(** X4.  In both variants the status of a response is 200, 304, 404 or
    500.  It is 500 only for a request handled by the route [/abnormal]
    whose draw is at least the literal 0.3 and below the literal 0.6, and
    404 only for a request that no route handles.  It is 304 only for a
    request with [If-None-Match] that the route [/normal] or [/abnormal]
    handles, and then the response has no body.  It is 200 for every
    request handled by [/metrics], and for every request without
    [If-None-Match] handled by [/normal]. *)
Theorem response_statuses (v : Variant) (env : ProcessEnv) (t : Timing)
    (req : Request) (w : World) :
  let res := fst (handleRequest v env t req w) in
  let r := random env (draws w) in
  (statusCode res = 200 \/ statusCode res = 304 \/
   statusCode res = 404 \/ statusCode res = 500) /\
  (statusCode res = 500 ->
   routeTemplate req = Some "/abnormal" /\
   (Num.lit_0_3 <= r)%Q /\ (r < Num.lit_0_6)%Q) /\
  (statusCode res = 404 -> routeTemplate req = None) /\
  (statusCode res = 304 ->
   (routeTemplate req = Some "/normal" \/
    routeTemplate req = Some "/abnormal") /\
   given (ifNoneMatch (headers req)) <> None /\
   body res = BEmpty) /\
  (routeTemplate req = Some "/metrics" -> statusCode res = 200) /\
  (routeTemplate req = Some "/normal" ->
   statusCode res = 200 \/ statusCode res = 304) /\
  (routeTemplate req = Some "/normal" ->
   given (ifNoneMatch (headers req)) = None -> statusCode res = 200).
Proof.
  intros res r. subst res. rewrite handleRequest_fst.
  unfold routeTemplate, Index.routes. cbn [List.find]. subst r.
  destruct v; unfold_routes; run;
    rewrite ?sendStatus_500;
    try match goal with
        | |- context [sendStatus ?p ?q 200 ?x] =>
            destruct (sendStatus_200 p q x) as [E | (E & Hnm & Hm)];
            rewrite E
        end;
    try match goal with
        | H : String.eqb (method _) "OPTIONS" && _ = true,
          Hm : String.eqb (method _) "GET" || _ = true |- _ =>
            exfalso; apply andb_true_iff in H as [H _];
            apply String.eqb_eq in H; rewrite H in Hm; discriminate Hm
        end;
    (split; [auto|]);
    (split; [intros H;
             first [ discriminate H
                   | split; [done|];
                     split; [by apply Qltb_false | by apply Qltb_lt] ]|]);
    (split; [intros H; first [discriminate H | done]|]);
    (split; [intros H;
             first [discriminate H | split; [auto|]; by split]|]);
    (split; [intros H; first [discriminate H | done]|]);
    (split; [intros H; first [discriminate H | auto]|]);
    intros H Hn; first [discriminate H | done | by destruct Hnm].
Qed.

Lemma response_statuses_witness :
  statusCode (fst (runFrom Part000Js (4 # 10) quickTiming "HEAD" "/Abnormal/"))
  = 500 /\
  routeTemplate (plain "HEAD" "/Abnormal/") = Some "/abnormal" /\
  statusCode (fst (runFrom Part000Js (4 # 10) quickTiming "POST" "/normal"))
  = 404 /\
  routeTemplate (plain "POST" "/normal") = None /\
  statusCode (fst (runWith Part000Js 0 quickTiming revalidation)) = 304 /\
  body (fst (runWith Part000Js 0 quickTiming revalidation)) = BEmpty.
Proof.
  pose proof (response_statuses Part000Js (envWithRandom (4 # 10)) quickTiming
                (plain "HEAD" "/Abnormal/") startWorld)
    as (_ & H500 & _).
  pose proof (response_statuses Part000Js (envWithRandom (4 # 10)) quickTiming
                (plain "POST" "/normal") startWorld)
    as (_ & _ & H404 & _).
  pose proof (response_statuses Part000Js (envWithRandom 0) quickTiming
                revalidation startWorld)
    as (_ & _ & _ & H304 & _).
  assert (Hst : statusCode (fst (runWith Part000Js 0 quickTiming revalidation))
                = 304) by (by vm_compute).
  split; [reflexivity|]. split; [exact (proj1 (H500 eq_refl))|].
  split; [reflexivity|]. split; [exact (H404 eq_refl)|].
  split; [exact Hst|]. exact (proj2 (proj2 (H304 Hst))).
Defined.

(** X5.  In both variants [Math.random()] is called once by a request
    that the route [/abnormal] handles and not at all by any other
    request. *)
Theorem only_abnormal_draws (v : Variant) (env : ProcessEnv) (t : Timing)
    (req : Request) (w : World) :
  draws (snd (handleRequest v env t req w))
  = (draws w
     + (if bool_decide (routeTemplate req = Some "/abnormal") then 1 else 0))%nat.
Proof.
  rewrite handleRequest_draws.
  unfold routeTemplate, Index.routes. cbn [List.find].
  destruct v; unfold_routes; run; case_bool_decide; try done; lia.
Qed.

End Requests.

Section Logging.
Import Express.

Lemma textsTo_app p ws ws' :
  textsTo p (ws ++ ws') = textsTo p ws ++ textsTo p ws'.
Proof. unfold textsTo. by rewrite List.filter_app, map_app. Qed.

Lemma log_shape lg now lvl message meta :
  exists out,
    Winston.log lg now lvl message meta
    = map (fun tr => (tr, out))
          (List.filter (fun tr => Winston.accepts lg tr lvl)
                       (Winston.transports lg)).
Proof. by eexists. Qed.

(** The lines one call gives to the console, to the main file and to the
    error file. *)
Lemma call_texts v env c :
  programLevel c ->
  exists out,
    textsTo isConsole (writeCall (loggerOf v env) c) = [out] /\
    textsTo isMainFile (writeCall (loggerOf v env) c) = [out] /\
    textsTo isErrorFile (writeCall (loggerOf v env) c)
    = match v with
      | IndexJs => if isErrorLog (callEvent c) then [out] else []
      | Part000Js => []
      end.
Proof.
  destruct c as [[[now lvl] message] meta]. unfold programLevel.
  cbn [callLevel callEvent writeCall]. intros Hlvl.
  destruct (log_shape (loggerOf v env) now lvl message meta) as [out ->].
  exists out. unfold textsTo.
  destruct v; cbn [loggerOf Index.logger Part000.logger Winston.transports];
    unfold Winston.accepts;
    cbn [Winston.level Winston.transportLevel default List.filter];
    destruct Hlvl as [-> | ->]; cbn [isErrorLog];
    unfold Index.logger; simpl; try destruct (decide _); by simpl.
Qed.

Lemma calls_texts v env calls :
  Forall programLevel calls ->
  textsTo isConsole (flat_map (writeCall (loggerOf v env)) calls)
  = textsTo isMainFile (flat_map (writeCall (loggerOf v env)) calls) /\
  length (textsTo isConsole (flat_map (writeCall (loggerOf v env)) calls))
  = length calls /\
  length (textsTo isErrorFile (flat_map (writeCall (loggerOf v env)) calls))
  = match v with
    | IndexJs => count isErrorLog (map callEvent calls)
    | Part000Js => 0%nat
    end.
Proof.
  induction 1 as [|c calls Hc _ (IH1 & IH2 & IH3)].
  - by destruct v.
  - cbn [flat_map map]. rewrite !textsTo_app, !length_app.
    destruct (call_texts v env c Hc) as (out & -> & -> & ->).
    split; [by rewrite IH1|]. split; [by rewrite IH2|]. rewrite IH3.
    destruct v; [|done]. unfold count. cbn [List.filter].
    by destruct (isErrorLog (callEvent c)).
Qed.

Lemma count_filter_isLog es :
  count isErrorLog (List.filter isLog es) = count isErrorLog es /\
  length (List.filter isLog es) = count isLog es.
Proof.
  split; [|reflexivity]. unfold count.
  induction es as [|e es IH]; [done|].
  destruct e as [| | |lvl message meta| |]; cbn; try exact IH.
  destruct lvl; cbn; by rewrite ?IH.
Qed.

(** X7.  In both variants the console and the main log file
    ([application-%DATE%.log] of [src/index.js], [app.log] of
    [src/unnamed/part_000]) are given the same lines in the same order
    during a request, one line for each call of the logger. *)
Theorem console_mirrors_log_file (v : Variant) (env : ProcessEnv)
    (t : Timing) (req : Request) (w : World) :
  let ws := writtenSince w (snd (handleRequest v env t req w)) in
  let es := eventsSince w (snd (handleRequest v env t req w)) in
  textsTo isConsole ws = textsTo isMainFile ws /\
  length (textsTo isConsole ws) = count isLog es.
Proof.
  intros ws es.
  destruct (handleRequest_calls v env t req w) as (calls & Hw & Hf & Hl & _).
  fold ws es in Hw, Hf. clearbody ws es. rewrite Hw.
  destruct (calls_texts v env calls Hl) as (H1 & H2 & _).
  split; [exact H1|]. rewrite H2.
  rewrite <- (proj2 (count_filter_isLog es)), Hf. by rewrite length_map.
Qed.

Lemma index_route_errors env t req w :
  exists hs,
    trace (snd (routeOf IndexJs env t req w)) = trace w ++ hs /\
    count isErrorLog hs
    = if statusCode (fst (routeOf IndexJs env t req w)) =? 500
      then 1%nat else 0%nat.
Proof.
  unfold_routes; run; rewrite <- ?app_assoc;
    first [ exfalso;
            match goal with H : (_ =? _) = _ |- _ => by vm_compute in H end
          | exfalso;
            match goal with
            | H : (sendStatus ?p ?q 200 ?x =? 500) = true |- _ =>
                apply Z.eqb_eq in H;
                destruct (sendStatus_cases p q 200 x) as [E|E];
                rewrite E in H; discriminate H
            | H : (sendStatus ?p ?q 500 ?x =? 500) = false |- _ =>
                rewrite sendStatus_500 in H; discriminate H
            end
          | eexists; split; reflexivity ].
Qed.

(** X8.  In [src/index.js] the error file [error-%DATE%.log] is given
    exactly one line during a request whose response has status 500 and
    none during any other request; [src/unnamed/part_000] has no such
    file. *)
Theorem error_file_only_on_500 (v : Variant) (env : ProcessEnv) (t : Timing)
    (req : Request) (w : World) :
  let res := fst (handleRequest v env t req w) in
  let ws := writtenSince w (snd (handleRequest v env t req w)) in
  length (textsTo isErrorFile ws)
  = match v with
    | IndexJs => if statusCode res =? 500 then 1%nat else 0%nat
    | Part000Js => 0%nat
    end.
Proof.
  intros res ws.
  destruct (handleRequest_calls v env t req w) as (calls & Hw & Hf & Hl & _).
  destruct (calls_texts v env calls Hl) as (_ & _ & H3).
  fold ws in Hw. rewrite Hw, H3. destruct v; [|done].
  rewrite <- Hf, (proj1 (count_filter_isLog _)).
  subst res. clear. rewrite handleRequest_split. cbn [fst snd].
  destruct (index_route_errors env t req w) as (hs & Ht & Hc).
  erewrite eventsSince_app;
    [|unfold finished; project; rewrite Ht, <- app_assoc; reflexivity].
  rewrite count_app, Hc. unfold count. cbn. lia.
Qed.

End Logging.

Section Startup.
Import Express.

(** X9.  In both variants the callback of [app.listen] logs 'Server
    running on port' followed by the port at info severity, prints the
    same line with [console.log], and leaves the metrics and the random
    source untouched.  The port is the value of [PORT], and 4000 when
    [PORT] is unset or empty. *)
Theorem listening_announces_port (v : Variant) (env : ProcessEnv) (now : Z)
    (w : World) :
  let w' := snd (listeningOf v env now w) in
  let line := "Server running on port " +:+ portText env in
  stdout w' = stdout w ++ [line] /\
  eventsSince w w' = [EvLog Winston.info line []] /\
  writtenSince w w' = Winston.log (loggerOf v env) now Winston.info line [] /\
  requestCounter w' = requestCounter w /\
  responseTimeHistogram w' = responseTimeHistogram w /\
  draws w' = draws w /\
  (PORT env = None \/ PORT env = Some EmptyString -> portText env = "4000") /\
  (forall p, PORT env = Some p -> p <> EmptyString -> portText env = p).
Proof.
  intros w' line. subst w'.
  destruct v; unfold listeningOf, Index.listening, Part000.listening;
    unfold_ops; project; fold line;
    (split; [done|]); (split; [by apply eventsSince_app|]);
    (split; [by apply writtenSince_app|]);
    (split; [done|]); (split; [done|]); (split; [done|]);
    unfold portText; (split; [by intros [-> | ->]|]);
    intros p -> Hp; by apply String.eqb_neq in Hp as ->.
Qed.

Lemma listening_announces_port_witness :
  portText (mkProcessEnv None (Some EmptyString) "/app" 0 false (fun _ => 0%Q))
  = "4000" /\
  portText (mkProcessEnv None (Some "8080") "/app" 0 false (fun _ => 0%Q))
  = "8080".
Proof.
  pose proof (listening_announces_port
                IndexJs
                (mkProcessEnv None (Some EmptyString) "/app" 0 false
                              (fun _ => 0%Q)) 0 startWorld)
    as (_ & _ & _ & _ & _ & _ & Hdefault & _).
  pose proof (listening_announces_port
                IndexJs
                (mkProcessEnv None (Some "8080") "/app" 0 false
                              (fun _ => 0%Q)) 0 startWorld)
    as (_ & _ & _ & _ & _ & _ & _ & Hset).
  split; [apply Hdefault; by right|].
  apply Hset; [reflexivity|discriminate].
Defined.

(** X10.  In both variants the body of [GET /metrics] is the exposition
    of the counter and the histogram as they are when the request
    arrives, whatever the headers of the request: a request served before
    it is counted in that body, the scrape itself is not, and it is
    counted afterwards. *)
Theorem metrics_reports_earlier_requests (v : Variant) (env : ProcessEnv)
    (t1 t2 : Timing) (req : Request) (h : Headers) (w : World) :
  let res1 := fst (handleRequest v env t1 req w) in
  let w1 := snd (handleRequest v env t1 req w) in
  let res2 := fst (handleRequest v env t2 (mkRequest "GET" "/metrics" h) w1) in
  let w2 := snd (handleRequest v env t2 (mkRequest "GET" "/metrics" h) w1) in
  let scrape := Prom.mkLabels "GET" "/metrics" 200 in
  res2 = mkResponse 200 (BMetrics (requestCounter w1)
                                  (responseTimeHistogram w1)) /\
  Prom.counterValue (requestCounter w1) (labelsOf req res1)
  = Prom.counterValue (requestCounter w) (labelsOf req res1) + 1 /\
  Prom.counterValue (requestCounter w2) scrape
  = Prom.counterValue (requestCounter w1) scrape + 1.
Proof.
  intros res1 w1 res2 w2 scrape.
  assert (H1 : Prom.counterValue (requestCounter w1) (labelsOf req res1)
               = Prom.counterValue (requestCounter w) (labelsOf req res1) + 1).
  { subst w1 res1. rewrite one_request_counter.
    by rewrite bool_decide_eq_true_2. }
  assert (H2 : res2 = mkResponse 200 (BMetrics (requestCounter w1)
                                               (responseTimeHistogram w1))).
  { subst res2. rewrite handleRequest_fst. by apply route_metrics. }
  assert (H3 : Prom.counterValue (requestCounter w2) scrape
               = Prom.counterValue (requestCounter w1) scrape + 1).
  { subst w2. rewrite one_request_counter. fold res2. rewrite H2.
    by rewrite bool_decide_eq_true_2. }
  done.
Qed.

(** X11.  In [src/unnamed/part_000] every request makes exactly one call
    of the logger, the 'Request completed' record.  In [src/index.js] a
    request handled by [/normal] makes two calls, one handled by
    [/abnormal] three, and every other request, [GET /metrics] included,
    one. *)
Theorem log_calls_per_request (v : Variant) (env : ProcessEnv) (t : Timing)
    (req : Request) (w : World) :
  count isLog (eventsSince w (snd (handleRequest v env t req w)))
  = match v with
    | Part000Js => 1%nat
    | IndexJs =>
        if bool_decide (routeTemplate req = Some "/normal") then 2%nat
        else if bool_decide (routeTemplate req = Some "/abnormal") then 3%nat
        else 1%nat
    end.
Proof.
  rewrite handleRequest_split. cbn [snd].
  assert (Hroute :
            exists hs,
              trace (snd (routeOf v env t req w)) = trace w ++ hs /\
              count isLog hs
              = match v with
                | Part000Js => 0%nat
                | IndexJs =>
                    if bool_decide (routeTemplate req = Some "/normal")
                    then 1%nat
                    else if bool_decide (routeTemplate req = Some "/abnormal")
                         then 2%nat else 0%nat
                end).
  { unfold routeTemplate, Index.routes. cbn [List.find].
    destruct v; unfold_routes; run; rewrite <- ?app_assoc;
      eexists; (split; [reflexivity|]);
      repeat case_bool_decide; done. }
  destruct Hroute as (hs & Ht & Hc).
  erewrite eventsSince_app;
    [|unfold finished; project; rewrite Ht, <- app_assoc; reflexivity].
  rewrite count_app, Hc.
  change (count isLog [ EvInc (labelsOf req (fst (routeOf v env t req w)));
                        EvObserve (labelsOf req (fst (routeOf v env t req w)))
                                  (Num.secs (wall (tFinish t) - wall (tEntry t)));
                        EvLog Winston.info "Request completed"
                          (completedMeta req (fst (routeOf v env t req w))
                             (wall (tFinish t) - wall (tEntry t))
                             (wall (tTime t))) ]) with 1%nat.
  destruct v; repeat case_bool_decide; lia.
Qed.

(** X12.  In both variants the response to a request that [/metrics]
    does not handle depends on the state only through the number of
    random draws made so far: the metrics, the records written and the
    calls made before have no influence on it. *)
Theorem response_independent_of_state (v : Variant) (env : ProcessEnv)
    (t : Timing) (req : Request) (w1 w2 : World) :
  routeTemplate req <> Some "/metrics" ->
  draws w1 = draws w2 ->
  fst (handleRequest v env t req w1) = fst (handleRequest v env t req w2).
Proof.
  rewrite !handleRequest_fst.
  unfold routeTemplate, Index.routes. cbn [List.find].
  destruct w1 as [c1 h1 wr1 so1 d1 tr1], w2 as [c2 h2 wr2 so2 d2 tr2].
  cbn [draws]. intros Hm <-.
  destruct v; unfold_routes; run; done.
Qed.

Lemma response_independent_of_state_witness :
  fst (handleRequest IndexJs (envWithRandom (4 # 10)) quickTiming
                     (plain "GET" "/normal") startWorld)
  = fst (handleRequest IndexJs (envWithRandom (4 # 10)) quickTiming
                       (plain "GET" "/normal")
                       (mkWorld (Prom.inc (Prom.mkLabels "GET" "/x" 404)
                                          (requestCounter startWorld))
                                (responseTimeHistogram startWorld)
                                [] ["started"] 0 [EvTimer 1])).
Proof.
  apply (response_independent_of_state
           IndexJs (envWithRandom (4 # 10)) quickTiming
           (plain "GET" "/normal")); [discriminate|reflexivity].
Defined.

End Startup.

Section Configuration.
Import Express Winston.

(** X13.  In both variants the [time] field of the 'Request completed'
    record is the ISO-8601 date-time, in UTC, of the reading of the clock
    by [new Date()] when the record is built, a reading of its own; the
    duration given to the histogram and the [duration] field are the
    reading of [Date.now()] in the 'finish' listener minus the reading at
    entry, in seconds. *)
Theorem completed_time_is_iso (v : Variant) (env : ProcessEnv) (t : Timing)
    (req : Request) (w : World) :
  exists hs l meta,
    eventsSince w (snd (handleRequest v env t req w))
    = hs ++ [ EvInc l;
              EvObserve l (Num.secs (wall (tFinish t) - wall (tEntry t)));
              EvLog info "Request completed" meta ] /\
    Json.get "time" meta
    = Some (Json.JStr (DateFmt.toISOString (wall (tTime t)))) /\
    Json.get "duration" meta
    = Some (Json.JSecs (wall (tFinish t) - wall (tEntry t))) /\
    DateFmt.isISO8601 (DateFmt.toISOString (wall (tTime t))) = true.
Proof.
  destruct (handleRequest_events v env t req w) as (hs & _ & _ & Hes).
  cbv zeta in Hes. eexists hs, _, _. split; [exact Hes|].
  split; [reflexivity|]. split; [reflexivity|].
  apply isISO8601_toISOString.
Qed.

(** A request whose three readings at completion differ: the duration
    follows [Date.now()] in the listener, the [time] field the later
    [new Date()]. *)
Lemma completed_time_example :
  List.filter isCompleted
    (eventsSince startWorld
       (snd (handleRequest Part000Js (envWithRandom 0)
               (mkTiming (mkInstant 1700000000000 0)
                         (mkInstant 1700000000000 0)
                         (mkInstant 1700000000000 0)
                         (mkInstant 1700000000999 999)
                         (mkInstant 1700000001000 1000)
                         (mkInstant 1700000001001 1001))
               (plain "GET" "/normal") startWorld)))
  = [ EvLog info "Request completed"
            [ ("method", Json.JStr "GET");
              ("endpoint", Json.JStr "/normal");
              ("status", Json.JInt 200);
              ("duration", Json.JSecs 999);
              ("time", Json.JStr "2023-11-14T22:13:21.000Z") ] ].
Proof. by vm_compute. Qed.

(** X14.  The transports of [src/index.js] by severity: error records go
    to the console and both files, warn and info records to the console
    and [application-%DATE%.log], and debug records to the console alone
    and only when [NODE_ENV] is [development].  In
    [src/unnamed/part_000] the file and the console take error, warn and
    info records and nothing more verbose. *)
Theorem transports_by_severity (env : ProcessEnv) :
  let lg := Index.logger env in
  let console := Console None in
  let application :=
    DailyRotateFile (dirname env +:+ "/logs/application-%DATE%.log")
                    "YYYY-MM-DD" "14d" (Some info) in
  let errors :=
    DailyRotateFile (dirname env +:+ "/logs/error-%DATE%.log")
                    "YYYY-MM-DD" "14d" (Some error) in
  let takers lg lvl :=
    List.filter (fun tr => accepts lg tr lvl) (transports lg) in
  takers lg error = [console; application; errors] /\
  takers lg warn = [console; application] /\
  takers lg info = [console; application] /\
  takers lg debug
  = (if decide (NODE_ENV env = Some "development") then [console] else []) /\
  (forall lvl, priority lvl <= 2 ->
               takers Part000.logger lvl
               = [File "/var/log/app/app.log" None; console]) /\
  (forall lvl, 2 < priority lvl -> takers Part000.logger lvl = []).
Proof.
  intros lg console application errors takers.
  subst lg takers. unfold Index.logger, accepts. simpl.
  destruct (decide (NODE_ENV env = Some "development")); simpl;
    repeat split; try (intros [] H; simpl in *; (reflexivity || lia)).
Qed.

Lemma transports_by_severity_witness :
  List.filter (fun tr => accepts Part000.logger tr error)
              (transports Part000.logger)
  = [File "/var/log/app/app.log" None; Console None] /\
  List.filter (fun tr => accepts Part000.logger tr debug)
              (transports Part000.logger)
  = [].
Proof.
  pose proof (transports_by_severity (envWithRandom 0))
    as (_ & _ & _ & _ & Hle & Hgt).
  split; [apply (Hle error); simpl; lia | apply (Hgt debug); simpl; lia].
Defined.

End Configuration.
